(** * TelegramPoster (ai_agent.py): a shallow embedding and its properties

    The agent reads [config.json], registers one cron job per configured
    post with the trigger engine, and sends text or photo posts when the
    jobs fire.  The Python class [TelegramPoster] is embedded as state
    passing over a record of its fields; every call into a collaborator
    (file system, chat client, HTTP client, [strptime], [CronTrigger]) is
    answered by a field of a [World] record, so that every theorem holds
    for every behaviour of the collaborators. *)

From Stdlib Require Import ZArith String Ascii List Bool Lia.
From stdpp Require Import base option list gmap strings pretty.

Local Open Scope string_scope.
Local Open Scope list_scope.
Local Open Scope Z_scope.

(* ================================================================== *)
(** ** Python values that come out of [json.load] *)
(* ================================================================== *)

(** A decoded JSON document.  Objects are Python dicts keyed by strings.
    The program never inspects a number, so a float is kept as an opaque
    mantissa and exponent. *)
#[warnings="-register-all"]
Inductive json : Type :=
| JNull
| JBool (b : bool)
| JInt (n : Z)
| JFloat (mantissa exponent : Z)
| JStr (s : string)
| JArr (items : list json)
| JObj (fields : gmap string json).

(** Python's truth value of a decoded document ([if not x]). *)
Definition truthy (v : json) : bool :=
  match v with
  | JNull => false
  | JBool b => b
  | JInt n => negb (n =? 0)
  | JFloat m _ => negb (m =? 0)
  | JStr s => negb (String.eqb s "")
  | JArr l => match l with [] => false | _ => true end
  | JObj m => negb (bool_decide (m = ∅))
  end.

(** [v == "lit"] for a string literal: only a [str] can be equal to it. *)
Definition eq_str (v : json) (lit : string) : bool :=
  match v with
  | JStr s => String.eqb s lit
  | _ => false
  end.

(* ================================================================== *)
(** ** Exceptions and results *)
(* ================================================================== *)

(** The subclasses of Python's [Exception] the program can meet.  All of
    them are caught by an [except Exception] clause; what is not an
    [Exception] (a cancellation, an interrupt) is outside the model. *)
Inductive exn : Type :=
| KeyError (key : string)
| TypeError
| AttributeError
| ValueError
| RuntimeError (msg : string)
| OSError
| ConflictingIdError (job_id : string)
| SchedulerAlreadyRunningError
| OtherError (what : string).

Inductive result (A : Type) : Type :=
| Ok (a : A)
| Raise (e : exn).
Arguments Ok {A} a.
Arguments Raise {A} e.


(* ================================================================== *)
(** ** [datetime] and the recurrence specification given to the engine *)
(* ================================================================== *)

(** The fields of a [datetime.datetime] that the program reads. *)
Record datetime : Type := mk_datetime {
  year : Z; month : Z; day : Z; hour : Z; minute : Z; second : Z
}.

Definition is_leap (y : Z) : bool :=
  (y mod 4 =? 0) && (negb (y mod 100 =? 0) || (y mod 400 =? 0)).

Definition days_before_year (y : Z) : Z :=
  let p := y - 1 in p * 365 + p / 4 - p / 100 + p / 400.

Definition days_before_month (y m : Z) : Z :=
  nth (Z.to_nat m) [-1; 0; 31; 59; 90; 120; 151; 181; 212; 243; 273; 304; 334] 0
  + (if (2 <? m) && is_leap y then 1 else 0).

(** [date.toordinal()]: day 1 is 0001-01-01 of the proleptic Gregorian
    calendar. *)
Definition toordinal (t : datetime) : Z :=
  days_before_year (year t) + days_before_month (year t) (month t) + day t.

(** [date.weekday()]: Monday is 0 and Sunday is 6. *)
Definition weekday (t : datetime) : Z := (toordinal t + 6) mod 7.

(** The [day=] keyword of [CronTrigger] receives either the string
    ["*"] or a day number. *)
Inductive day_expr : Type :=
| DayStar
| DayNum (d : Z).

(** The keyword arguments of one [CronTrigger(...)] call; [None] is a
    keyword that is not passed. *)
Record cron_args : Type := mk_cron {
  cron_year : option Z;
  cron_month : option Z;
  cron_day : option day_expr;
  cron_day_of_week : option Z;
  cron_hour : Z;
  cron_minute : Z
}.

(** Lines 72-79: the keywords chosen from the parsed time and the
    repeat mode. *)
Definition trigger_kwargs (post_time : datetime) (repeat : json) : cron_args :=
  if eq_str repeat "daily" then
    mk_cron None None (Some DayStar) None (hour post_time) (minute post_time)
  else if eq_str repeat "weekly" then
    mk_cron None None None (Some (weekday post_time))
            (hour post_time) (minute post_time)
  else if eq_str repeat "monthly" then
    mk_cron None None (Some (DayNum (day post_time))) None
            (hour post_time) (minute post_time)
  else
    mk_cron (Some (year post_time)) (Some (month post_time))
            (Some (DayNum (day post_time))) None
            (hour post_time) (minute post_time).

(** The trigger engine's reading of a recurrence specification: a
    keyword that is not passed and is more significant than a passed one
    matches every value, a passed number matches that value only, and
    the seconds, less significant than the minute that is always passed,
    take their least value.  Weekdays are numbered from Monday = 0, as
    [weekday] numbers them. *)
Definition field_matches (f : option Z) (x : Z) : bool :=
  match f with
  | None => true
  | Some v => x =? v
  end.

Definition day_matches (f : option day_expr) (x : Z) : bool :=
  match f with
  | None | Some DayStar => true
  | Some (DayNum d) => x =? d
  end.

Definition fires (c : cron_args) (t : datetime) : bool :=
  field_matches (cron_year c) (year t)
  && field_matches (cron_month c) (month t)
  && day_matches (cron_day c) (day t)
  && field_matches (cron_day_of_week c) (weekday t)
  && (hour t =? cron_hour c)
  && (minute t =? cron_minute c)
  && (second t =? 0).

(* ================================================================== *)
(** ** The collaborators *)
(* ================================================================== *)

(** What [requests.post] returns. *)
Record response : Type := mk_response {
  status_code : Z;
  response_text : string
}.

(** One answer per call the program makes into its environment.  A call
    that can raise answers with a [result]. *)
Record World : Type := mk_world {
  getenv : string -> option string;
  (** [open('config.json', 'r')] followed by [json.load] *)
  load_config_json : result json;
  (** [Path(p).expanduser().resolve()] *)
  path_resolve : string -> result string;
  path_is_file : string -> result bool;
  os_access_R_OK : string -> result bool;
  path_exists : string -> result bool;
  (** [open(p, "rb")] *)
  open_rb : string -> result unit;
  (** [requests.post(url, data={chat_id, caption}, files={photo})] *)
  requests_post : string -> option string -> json -> string -> result response;
  (** [bot.get_me()], answering the bot's username *)
  get_me : result string;
  (** [bot.send_message(chat_id=, text=, parse_mode=)] *)
  send_message : option string -> json -> string -> result unit;
  (** [update.message.reply_text(text)] *)
  reply_text : string -> result unit;
  (** [datetime.strptime(s, "%Y-%m-%d %H:%M:%S")] *)
  strptime : string -> result datetime;
  (** the validation done by the [CronTrigger] constructor *)
  CronTrigger : cron_args -> result unit
}.

(* ================================================================== *)
(** ** Observable actions *)
(* ================================================================== *)

(** The value interpolated into a log line. *)
Inductive log_arg : Type :=
| ArgNone
| ArgExn (e : exn)
| ArgPath (p : string)
| ArgStr (s : string)
| ArgValue (v : json).

Inductive event : Type :=
| LogError (msg : string) (arg : log_arg)
| LogInfo (msg : string) (arg : log_arg)
| EvGetMe
| EvSendMessage (chat : option string) (text : json) (parse_mode : string)
| EvHttpPost (url : string) (chat : option string) (caption : json) (photo : string)
| EvReplyText (text : string)
| EvSchedulerStart
| EvSchedulerShutdown (wait : bool).

Definition is_log_error (e : event) : bool :=
  match e with LogError _ _ => true | _ => false end.

(** The requests that leave the process: an upload, a chat message or a
    reply to a command. *)
Definition is_upload (e : event) : bool :=
  match e with EvHttpPost _ _ _ _ => true | _ => false end.

Definition is_chat_message (e : event) : bool :=
  match e with EvSendMessage _ _ _ => true | _ => false end.

Definition is_reply (e : event) : bool :=
  match e with EvReplyText _ => true | _ => false end.

Definition is_network_call (e : event) : bool :=
  match e with
  | EvHttpPost _ _ _ _ | EvSendMessage _ _ _ | EvReplyText _ | EvGetMe => true
  | _ => false
  end.

Definition count (p : event -> bool) (t : list event) : nat :=
  length (List.filter p t).

(* ================================================================== *)
(** ** The state of a [TelegramPoster] *)
(* ================================================================== *)

(** A job handed to [add_job]: its id, its trigger and the post that is
    the only argument of the callback, which is always [_send_post].  A
    post that reaches [add_job] has been indexed with a string key, so it
    is a dict. *)
Record Job : Type := mk_job {
  job_id : string;
  job_trigger : cron_args;
  job_args : gmap string json
}.

(** The [AsyncIOScheduler]: whether it reports that it runs and what
    was registered, in registration order. *)
Record Scheduler : Type := mk_scheduler {
  running : bool;
  jobs : list Job
}.

Definition AsyncIOScheduler : Scheduler := mk_scheduler false [].

Variant Bot : Type := BotHandle.

Record TelegramPoster : Type := mk_poster {
  bot : option Bot;
  token : option string;
  chat_id : option string;
  scheduler : Scheduler;
  config : gmap string json;
  rate_limit_delay : Z;
  _is_ready : bool
}.

Definition set_bot (b : Bot) (self : TelegramPoster) : TelegramPoster :=
  mk_poster (Some b) (token self) (chat_id self) (scheduler self)
            (config self) (rate_limit_delay self) (_is_ready self).

Definition with_scheduler (sch : Scheduler) (self : TelegramPoster) : TelegramPoster :=
  mk_poster (bot self) (token self) (chat_id self) sch
            (config self) (rate_limit_delay self) (_is_ready self).

Definition with_config (cfg : gmap string json) (self : TelegramPoster) : TelegramPoster :=
  mk_poster (bot self) (token self) (chat_id self) (scheduler self)
            cfg (rate_limit_delay self) (_is_ready self).

Definition with_ready (b : bool) (self : TelegramPoster) : TelegramPoster :=
  mk_poster (bot self) (token self) (chat_id self) (scheduler self)
            (config self) (rate_limit_delay self) b.

(* ================================================================== *)
(** ** A state, exception and output monad for the methods *)
(* ================================================================== *)

(** A method run: from the object before the call to the value returned
    or the exception raised, the object after the call, and the actions
    performed, in order. *)
Definition M (A : Type) : Type :=
  TelegramPoster -> result A * TelegramPoster * list event.

Definition ret {A} (a : A) : M A := fun self => (Ok a, self, []).

Definition raise {A} (e : exn) : M A := fun self => (Raise e, self, []).

Definition bind {A B} (m : M A) (k : A -> M B) : M B := fun self =>
  match m self with
  | (Ok a, self1, t1) =>
      match k a self1 with
      | (r, self2, t2) => (r, self2, t1 ++ t2)
      end
  | (Raise e, self1, t1) => (Raise e, self1, t1)
  end.

(** [try: body  except Exception as e: handler e] *)
Definition try_except {A} (body : M A) (handler : exn -> M A) : M A := fun self =>
  match body self with
  | (Ok a, self1, t1) => (Ok a, self1, t1)
  | (Raise e, self1, t1) =>
      match handler e self1 with
      | (r, self2, t2) => (r, self2, t1 ++ t2)
      end
  end.

Definition lift {A} (r : result A) : M A := fun self => (r, self, []).

Definition emit (e : event) : M unit := fun self => (Ok tt, self, [e]).

Definition gets {A} (f : TelegramPoster -> A) : M A := fun self => (Ok (f self), self, []).

Definition modify (f : TelegramPoster -> TelegramPoster) : M unit :=
  fun self => (Ok tt, f self, []).

(** A call that leaves the process: the request is issued, then the
    collaborator answers or raises. *)
Definition call {A} (e : event) (answer : result A) : M A :=
  fun self => (answer, self, [e]).

Notation "'let*' x ':=' m 'in' k" := (bind m (fun x => k))
  (at level 10, x name, m at level 100, k at level 200).
Notation "m '>>' k" := (bind m (fun _ => k))
  (at level 90, right associativity).

Definition outcome {A} (r : result A * TelegramPoster * list event) : result A := r.1.1.
Definition final {A} (r : result A * TelegramPoster * list event) : TelegramPoster := r.1.2.
Definition trace {A} (r : result A * TelegramPoster * list event) : list event := r.2.

(* ================================================================== *)
(** ** Python operations on decoded values *)
(* ================================================================== *)

(** [str.isspace] on the ASCII range: tab to carriage return, the four
    separators 28 to 31, and the space.  Strings are modelled as ASCII. *)
Definition is_space (c : ascii) : bool :=
  let n := nat_of_ascii c in
  ((9 <=? n) && (n <=? 13) || (28 <=? n) && (n <=? 32))%nat.

Fixpoint lstrip (s : string) : string :=
  match s with
  | String c rest => if is_space c then lstrip rest else s
  | EmptyString => EmptyString
  end.

(** [str.strip()] *)
Definition strip (s : string) : string :=
  String.rev (lstrip (String.rev (lstrip s))).

(** The strings on which [strip] is Python's [str.strip]: those without
    a character beyond the ASCII range. *)
Definition is_ascii (s : string) : bool :=
  forallb (fun c => (nat_of_ascii c <? 128)%nat) (list_ascii_of_string s).

(** [obj[key]] for a string key. *)
Definition getitem (obj : json) (key : string) : result json :=
  match obj with
  | JObj m => match m !! key with
              | Some v => Ok v
              | None => Raise (KeyError key)
              end
  | _ => Raise TypeError
  end.

(** [d[key]] for a dict. *)
Definition dict_getitem (d : gmap string json) (key : string) : result json :=
  getitem (JObj d) key.

(** [d.get(key, dflt)] for a dict. *)
Definition dict_get (d : gmap string json) (key : string) (dflt : json) : json :=
  default dflt (d !! key).

(** [obj.get(key, dflt)]: only a dict has the method. *)
Definition get_method (obj : json) (key : string) (dflt : json) : result json :=
  match obj with
  | JObj m => Ok (dict_get m key dflt)
  | _ => Raise AttributeError
  end.

(** [obj.strip()]: only a [str] has the method. *)
Definition strip_method (obj : json) : result string :=
  match obj with
  | JStr s => Ok (strip s)
  | _ => Raise AttributeError
  end.

(** [Path(obj)]: only a [str] is accepted. *)
Definition Path (obj : json) : result string :=
  match obj with
  | JStr s => Ok s
  | _ => Raise TypeError
  end.

(** [obj[:50]]: a [str] and a list can be sliced. *)
Definition slice50 (obj : json) : result json :=
  match obj with
  | JStr s => Ok (JStr (String.substring 0 50 s))
  | JArr l => Ok (JArr (take 50 l))
  | _ => Raise TypeError
  end.

(** The values [enumerate(obj)] goes through: the items of a list, the
    characters of a [str], the keys of a dict (in the order of the map,
    which is not Python's insertion order); anything else is not
    iterable. *)
Definition py_iter (obj : json) : result (list json) :=
  match obj with
  | JArr l => Ok l
  | JStr s => Ok ((fun c => JStr (String c EmptyString)) <$> list_ascii_of_string s)
  | JObj m => Ok ((fun kv => JStr kv.1) <$> map_to_list m)
  | _ => Raise TypeError
  end.

(** [f"{x}"] for an optional string: [None] prints as ["None"]. *)
Definition py_str (x : option string) : string :=
  match x with
  | Some s => s
  | None => "None"
  end.

(** [x or None] for the answer of the path validation. *)
Definition or_None (x : option string) : json :=
  match x with
  | Some s => if String.eqb s "" then JNull else JStr s
  | None => JNull
  end.

(* ================================================================== *)
(** ** The trigger engine's interface *)
(* ================================================================== *)

Definition has_job (id : string) (sch : Scheduler) : bool :=
  existsb (fun j => String.eqb (job_id j) id) (jobs sch).

(** [scheduler.add_job(self._send_post, trigger, args=[post], id=id)]:
    a stopped scheduler queues the job; a running one refuses an id that
    it already has. *)
Definition add_job (id : string) (trigger : cron_args) (post : gmap string json) : M unit :=
  fun self =>
    let sch := scheduler self in
    if running sch && has_job id sch then (Raise (ConflictingIdError id), self, [])
    else (Ok tt,
          with_scheduler (mk_scheduler (running sch) (jobs sch ++ [mk_job id trigger post])) self,
          []).

(** [scheduler.start()] *)
Definition scheduler_start : M unit := fun self =>
  let sch := scheduler self in
  if running sch then (Raise SchedulerAlreadyRunningError, self, [])
  else (Ok tt, with_scheduler (mk_scheduler true (jobs sch)) self, [EvSchedulerStart]).

(** [scheduler.shutdown(wait=wait)] on an [AsyncIOScheduler]: the call
    hands the stop to the event loop and returns.  The engine is
    untouched by the call itself and still reports that it runs when the
    call returns. *)
Definition scheduler_shutdown (wait : bool) : M unit := fun self =>
  (Ok tt, self, [EvSchedulerShutdown wait]).

(** What the event loop does later for one requested stop: a running
    engine stops and its job store is emptied; on an engine that has
    stopped already the request fails inside the loop, away from the
    caller of [shutdown]. *)
Definition perform_stop : M unit := fun self =>
  if running (scheduler self)
  then (Ok tt, with_scheduler (mk_scheduler false []) self, [])
  else (Raise (OtherError "SchedulerNotRunningError"), self, []).

(* ================================================================== *)
(** ** The methods of [TelegramPoster] *)
(* ================================================================== *)

Section Methods.

Variable W : World.

(** Lines 48-56. *)
Definition _validate_image_path (path : string) : M (option string) :=
  try_except
    (let* path_obj := lift (path_resolve W path) in
     let* is_file := lift (path_is_file W path_obj) in
     let* readable := (if is_file then lift (os_access_R_OK W path_obj) else ret false) in
     if readable then ret (Some path_obj)
     else emit (LogError "Invalid image path: " (ArgPath path_obj)) >> ret None)
    (fun e => emit (LogError "Path validation error: " (ArgExn e)) >> ret None).

(** Line 46: the dict returned when loading fails. *)
Definition fallback_config : gmap string json := {["scheduled_posts" := JArr []]}.

(** Lines 37-46. *)
Definition _load_config : M (gmap string json) :=
  try_except
    (let* config := lift (load_config_json W) in
     let* raw := lift (get_method config "image_path" (JStr "")) in
     let* img_path := lift (strip_method raw) in
     let* valid := _validate_image_path img_path in
     match config with
     | JObj m => ret (<["image_path" := or_None valid]> m)
     | _ => raise TypeError
     end)
    (fun e => emit (LogError "Config loading failed: " (ArgExn e)) >>
              ret fallback_config).

(** Lines 25-32: the constructor.  The config is loaded while the object
    has no [config] and no [_is_ready] yet; the loader reads neither. *)
Definition __init__ : result TelegramPoster * list event :=
  let self := mk_poster None (getenv W "TELEGRAM_BOT_TOKEN") (getenv W "TELEGRAM_CHAT_ID")
                        AsyncIOScheduler ∅ 1 false in
  match _load_config self with
  | (Ok cfg, self1, t) => (Ok (with_ready false (with_config cfg self1)), t)
  | (Raise e, _, t) => (Raise e, t)
  end.

(** Lines 70-80: the body of the [try] in the loop of
    [_setup_scheduler]. *)
Definition schedule_post (idx : nat) (post : json) : M unit :=
  let* time := lift (getitem post "time") in
  let* post_time := lift (match time with
                          | JStr s => strptime W s
                          | _ => Raise TypeError
                          end) in
  let* repeat := lift (get_method post "repeat" (JStr "once")) in
  let trigger := trigger_kwargs post_time repeat in
  let* _ := lift (CronTrigger W trigger) in
  match post with
  | JObj m => add_job ("post_" +:+ pretty idx) trigger m
  | _ => raise TypeError
  end.

(** Lines 68-82: the loop, from index [idx] on. *)
Fixpoint schedule_from (idx : nat) (posts : list json) : M unit :=
  match posts with
  | [] => ret tt
  | post :: rest =>
      try_except (schedule_post idx post)
                 (fun e => emit (LogError "Failed to schedule post: " (ArgExn e)))
      >> schedule_from (S idx) rest
  end.

(** Lines 67-82. *)
Definition _setup_scheduler : M unit :=
  let* cfg := gets config in
  let* posts := lift (py_iter (dict_get cfg "scheduled_posts" (JArr []))) in
  schedule_from 0%nat posts.

(** Lines 58-65. *)
Definition initialize : M unit :=
  let* b := gets bot in
  match b with
  | None => raise (RuntimeError "Bot instance not set")
  | Some _ =>
      let* me := call EvGetMe (get_me W) in
      emit (LogInfo "Bot initialized as @" (ArgStr me)) >>
      _setup_scheduler >>
      scheduler_start >>
      modify (with_ready true)
  end.

(** Lines 93-95.  Without a bot, [self.bot.send_message] is an
    attribute lookup on [None]. *)
Definition _send_text (text : json) : M unit :=
  let* b := gets bot in
  match b with
  | None => raise AttributeError
  | Some _ =>
      let* chat := gets chat_id in
      call (EvSendMessage chat text "HTML") (send_message W chat text "HTML") >>
      let* head := lift (slice50 text) in
      emit (LogInfo "Sent message: " (ArgValue head))
  end.

(** Lines 97-115. *)
Definition _send_media (caption media_path : json) : M unit :=
  try_except
    (let* raw := lift (Path media_path) in
     let* full_path := lift (path_resolve W raw) in
     let* found := lift (path_exists W full_path) in
     if negb found then emit (LogError "Media file not found: " (ArgPath full_path))
     else
       let* tok := gets token in
       let* chat := gets chat_id in
       let url := "https://api.telegram.org/bot" +:+ py_str tok +:+ "/sendPhoto" in
       lift (open_rb W full_path) >>
       let* response := call (EvHttpPost url chat caption full_path)
                             (requests_post W url chat caption full_path) in
       if status_code response =? 200 then
         let* head := lift (slice50 caption) in
         emit (LogInfo "Successfully sent media: " (ArgValue head))
       else emit (LogError "Failed to send media: " (ArgStr (response_text response))))
    (fun e => emit (LogError "Error uploading media via HTTPS: " (ArgExn e))).

(** Lines 84-91.  The arguments of a call are evaluated from left to
    right before the call. *)
Definition _send_post (post : gmap string json) : M unit :=
  try_except
    (if bool_decide (is_Some (post !! "media")) then
       let* text := lift (dict_getitem post "text") in
       let* media := lift (dict_getitem post "media") in
       _send_media text media
     else
       let* text := lift (dict_getitem post "text") in
       _send_text text)
    (fun e => emit (LogError "Send post error: " (ArgExn e))).

(** Lines 117-125. *)
Definition send_default_image : M unit :=
  let* ready := gets _is_ready in
  if negb ready then call (EvReplyText "Bot not ready yet.") (reply_text W "Bot not ready yet.")
  else
    let* cfg := gets config in
    let default_image := dict_get cfg "image_path" JNull in
    if negb (truthy default_image) then
      call (EvReplyText "No default image configured.")
           (reply_text W "No default image configured.")
    else _send_media (JStr "Here's the requested image!") default_image.

(** Lines 130-134. *)
Definition shutdown : M unit :=
  let* sch := gets scheduler in
  (if running sch then scheduler_shutdown false else ret tt) >>
  modify (with_ready false) >>
  emit (LogInfo "Scheduler stopped." ArgNone).

End Methods.

(** The job that [schedule_post] registers for a dict whose time
    parses to [post_time]. *)
Definition job_for (idx : nat) (post : gmap string json) (post_time : datetime) : Job :=
  mk_job ("post_" +:+ pretty idx)
         (trigger_kwargs post_time (dict_get post "repeat" (JStr "once")))
         post.

(** The line logged for a post that could not be scheduled. *)
Definition schedule_failure (e : event) : Prop :=
  exists x, e = LogError "Failed to schedule post: " (ArgExn x).

(* ================================================================== *)
(** ** A concrete environment, for running the methods *)
(* ================================================================== *)

Module Sample.

Definition digit (c : ascii) : option Z :=
  let n := Z.of_nat (nat_of_ascii c) in
  if (48 <=? n) && (n <=? 57) then Some (n - 48) else None.

Fixpoint number (acc : Z) (cs : list ascii) : option Z :=
  match cs with
  | [] => Some acc
  | c :: rest => match digit c with
                 | Some d => number (acc * 10 + d) rest
                 | None => None
                 end
  end.

Definition days_in_month (y m : Z) : Z :=
  if m =? 2 then (if is_leap y then 29 else 28)
  else if (m =? 4) || (m =? 6) || (m =? 9) || (m =? 11) then 30 else 31.

(** One of the layouts [strptime] accepts for
    ["%Y-%m-%d %H:%M:%S"]: every field zero-padded. *)
Definition parse_padded (s : string) : result datetime :=
  match list_ascii_of_string s with
  | [y1; y2; y3; y4; d1; m1; m2; d2; a1; a2; sp; h1; h2; c1; n1; n2; c2; s1; s2] =>
      if negb (Ascii.eqb d1 "-" && Ascii.eqb d2 "-" && Ascii.eqb sp " "
               && Ascii.eqb c1 ":" && Ascii.eqb c2 ":")
      then Raise ValueError
      else
        match number 0 [y1; y2; y3; y4], number 0 [m1; m2], number 0 [a1; a2],
              number 0 [h1; h2], number 0 [n1; n2], number 0 [s1; s2] with
        | Some y, Some m, Some d, Some h, Some n, Some sec =>
            if (1 <=? y) && (1 <=? m) && (m <=? 12) && (1 <=? d)
               && (d <=? days_in_month y m) && (h <? 24) && (n <? 60) && (sec <? 60)
            then Ok (mk_datetime y m d h n sec)
            else Raise ValueError
        | _, _, _, _, _, _ => Raise ValueError
        end
  | _ => Raise ValueError
  end.

Definition daily_post : gmap string json :=
  {[ "text" := JStr "Good morning";
     "time" := JStr "2024-01-15 09:30:00";
     "repeat" := JStr "daily" ]}.

Definition photo_post : gmap string json :=
  {[ "text" := JStr "Weekly picture";
     "media" := JStr "pics/missing.png";
     "time" := JStr "2024-01-17 18:05:00";
     "repeat" := JStr "weekly" ]}.

Definition broken_post : gmap string json :=
  {[ "text" := JStr "Never scheduled";
     "time" := JStr "tomorrow at noon" ]}.

Definition untitled_post : gmap string json :=
  {[ "media" := JStr "/srv/bot/banner.png";
     "time" := JStr "2024-03-31 23:59:59";
     "repeat" := JStr "monthly" ]}.

Definition config_json : json :=
  JObj {[ "scheduled_posts" := JArr [JObj broken_post; JObj daily_post; JObj photo_post];
          "image_path" := JStr "  /srv/bot/banner.png " ]}.

Definition resolve (p : string) : result string :=
  match p with
  | String "/" _ => Ok p
  | _ => Ok ("/srv/bot/" +:+ p)
  end.

Definition is_banner (p : string) : result bool :=
  Ok (String.eqb p "/srv/bot/banner.png").

(** A machine on which the banner is the only file, every request is
    answered, and the engine accepts years from 1970 on. *)
Definition world : World := {|
  getenv := fun name =>
    if String.eqb name "TELEGRAM_BOT_TOKEN" then Some "123:ABC"
    else if String.eqb name "TELEGRAM_CHAT_ID" then Some "-1001"
    else None;
  load_config_json := Ok config_json;
  path_resolve := resolve;
  path_is_file := is_banner;
  os_access_R_OK := is_banner;
  path_exists := is_banner;
  open_rb := fun _ => Ok tt;
  requests_post := fun _ _ _ _ => Ok (mk_response 200 "{}");
  get_me := Ok "poster_bot";
  send_message := fun _ _ _ => Ok tt;
  reply_text := fun _ => Ok tt;
  strptime := parse_padded;
  CronTrigger := fun c =>
    match cron_year c with
    | Some y => if y <? 1970 then Raise ValueError else Ok tt
    | None => Ok tt
    end
|}.

(** The same machine with no readable [config.json]. *)
Definition world_without_config : World := {|
  getenv := getenv world;
  load_config_json := Raise OSError;
  path_resolve := resolve;
  path_is_file := is_banner;
  os_access_R_OK := is_banner;
  path_exists := is_banner;
  open_rb := fun _ => Ok tt;
  requests_post := fun _ _ _ _ => Ok (mk_response 200 "{}");
  get_me := Ok "poster_bot";
  send_message := fun _ _ _ => Ok tt;
  reply_text := fun _ => Ok tt;
  strptime := parse_padded;
  CronTrigger := CronTrigger world
|}.

(** The object the constructor builds on [world]. *)
Definition poster : TelegramPoster :=
  mk_poster None (Some "123:ABC") (Some "-1001") AsyncIOScheduler
            {[ "scheduled_posts" := JArr [JObj broken_post; JObj daily_post; JObj photo_post];
               "image_path" := JStr "/srv/bot/banner.png" ]}
            1 false.

End Sample.

(* ================================================================== *)
(** ** The command handler and the calendar of the firing instants *)
(* ================================================================== *)

(** [asyncio.TimeoutError], which [asyncio.wait_for] raises when the
    awaited call has not returned in time. *)
Definition TimeoutError : exn := OtherError "TimeoutError".

Definition is_timeout (e : exn) : bool :=
  match e with
  | OtherError what => String.eqb what "TimeoutError"
  | _ => false
  end.

(** What a handler run leaves behind: the value or exception, the poster
    attached to the application, if any, and the actions performed. *)
Definition handler_run : Type := result unit * option TelegramPoster * list event.

(** Lines 136-148.  [wait_for_ready] stands for
    [asyncio.wait_for(poster.wait_until_ready(), timeout=10.0)]: while the
    handler is suspended there, other tasks may run, so the wait is any
    run on the poster, returning or raising.  An exception raised inside
    an [except] clause is not caught by the other clause. *)
Definition command_send_image (W : World) (wait_for_ready : M unit)
    (poster : option TelegramPoster) : handler_run :=
  let tried : handler_run :=
    match poster with
    | None => (reply_text W "Bot configuration missing.", None,
               [EvReplyText "Bot configuration missing."])
    | Some p =>
        match (wait_for_ready >> send_default_image W) p with
        | (r, p1, t) => (r, Some p1, t)
        end
    end in
  match tried with
  | (Ok a, p, t) => (Ok a, p, t)
  | (Raise e, p, t) =>
      if is_timeout e then
        (reply_text W "Bot initializing, try again soon.", p,
         t ++ [EvReplyText "Bot initializing, try again soon."])
      else
        (reply_text W "Error processing your request.", p,
         t ++ [LogError "Command error: " (ArgExn e);
               EvReplyText "Error processing your request."])
  end.

(** Lines 127-128 under [wait_for], when no other task touches the
    poster during the wait: a set event lets the waiter through at once,
    an unset one stays unset until the timeout. *)
Definition wait_undisturbed : M unit := fun self =>
  if _is_ready self then (Ok tt, self, []) else (Raise TimeoutError, self, []).

(** Line 104: the upload address of a poster. *)
Definition sendPhoto_url (self : TelegramPoster) : string :=
  "https://api.telegram.org/bot" +:+ py_str (token self) +:+ "/sendPhoto".

(** The fields that no method assigns after the constructor and
    [set_bot]. *)
Definition same_settings (a b : TelegramPoster) : Prop :=
  bot a = bot b /\ token a = token b /\ chat_id a = chat_id b
  /\ config a = config b /\ rate_limit_delay a = rate_limit_delay b.

Definition ready_implies_running (self : TelegramPoster) : Prop :=
  _is_ready self = true -> running (scheduler self) = true.

(** [j] is the job of a dict of [posts], numbered from [idx], whose time
    parses and whose trigger the engine accepts. *)
Definition registered_from (W : World) (posts : list json) (idx : nat) (j : Job) : Prop :=
  exists (i : nat) (post : gmap string json) stamp post_time,
    posts !! i = Some (JObj post)
    /\ post !! "time" = Some (JStr stamp)
    /\ strptime W stamp = Ok post_time
    /\ CronTrigger W (trigger_kwargs post_time (dict_get post "repeat" (JStr "once"))) = Ok tt
    /\ j = job_for (idx + i) post post_time.

(** [calendar._days_in_month], as [datetime] uses it to accept a date. *)
Definition days_in_month (y m : Z) : Z :=
  if (m =? 2) && is_leap y then 29
  else nth (Z.to_nat m) [-1; 31; 28; 31; 30; 31; 30; 31; 31; 30; 31; 30; 31] 0.

(** The dates that exist: the only instants a trigger can fire at. *)
Definition valid_date (t : datetime) : bool :=
  (1 <=? month t) && (month t <=? 12)
  && (1 <=? day t) && (day t <=? days_in_month (year t) (month t)).

(** Further machines and posters to run the methods on. *)
Module Cases.

(** The sample machine with every field open to replacement. *)
Definition machine (doc : result json) (me : result string)
    (post : result response) (send : result unit) : World := {|
  getenv := getenv Sample.world;
  load_config_json := doc;
  path_resolve := Sample.resolve;
  path_is_file := Sample.is_banner;
  os_access_R_OK := Sample.is_banner;
  path_exists := Sample.is_banner;
  open_rb := fun _ => Ok tt;
  requests_post := fun _ _ _ _ => post;
  get_me := me;
  send_message := fun _ _ _ => send;
  reply_text := fun _ => Ok tt;
  strptime := Sample.parse_padded;
  CronTrigger := CronTrigger Sample.world
|}.

(** The platform refuses every upload. *)
Definition refusing : World :=
  machine (Ok Sample.config_json) (Ok "poster_bot")
          (Ok (mk_response 403 "Forbidden")) (Ok tt).

(** No request gets through. *)
Definition offline : World :=
  machine (Ok Sample.config_json) (Raise (OtherError "NetworkError"))
          (Raise (OtherError "ConnectionError")) (Raise (OtherError "NetworkError")).

Definition null_image_fields : gmap string json :=
  {[ "scheduled_posts" := JArr [JObj Sample.daily_post]; "image_path" := JNull ]}.

(** A [config.json] whose [image_path] is null. *)
Definition null_image : World :=
  machine (Ok (JObj null_image_fields)) (Ok "poster_bot")
          (Ok (mk_response 200 "{}")) (Ok tt).

Definition sample_fields : gmap string json :=
  {[ "scheduled_posts" :=
       JArr [JObj Sample.broken_post; JObj Sample.daily_post; JObj Sample.photo_post];
     "image_path" := JStr "  /srv/bot/banner.png " ]}.

Definition with_bot : TelegramPoster := set_bot BotHandle Sample.poster.

(** The sample poster after a successful [initialize]. *)
Definition started : TelegramPoster := final (initialize Sample.world with_bot).

Definition null_posts : TelegramPoster :=
  with_config {[ "scheduled_posts" := JNull ]} with_bot.

Definition bare : TelegramPoster := with_config ∅ with_bot.

Definition timeless_post : gmap string json :=
  {[ "text" := JStr "No time given"; "repeat" := JStr "daily" ]}.

Definition numeric_post : gmap string json :=
  {[ "text" := JInt 2024; "time" := JStr "2024-01-01 00:00:00" ]}.

End Cases.

Example weekday_2024_01_15 : weekday (mk_datetime 2024 1 15 9 30 0) = 0.
Proof. reflexivity. Qed.

Example weekday_2000_02_29 : weekday (mk_datetime 2000 2 29 0 0 0) = 1.
Proof. reflexivity. Qed.

Example strip_spaces : strip "  /srv/bot/banner.png " = "/srv/bot/banner.png".
Proof. reflexivity. Qed.

Example sample_constructor :
  __init__ Sample.world = (Ok Sample.poster, []).
Proof. vm_compute. reflexivity. Qed.

(** The post with the unparseable time costs one error line; the two
    others are registered and the engine is started. *)
Example sample_initialize_trace :
  trace (initialize Sample.world (set_bot BotHandle Sample.poster))
  = [EvGetMe;
     LogInfo "Bot initialized as @" (ArgStr "poster_bot");
     LogError "Failed to schedule post: " (ArgExn ValueError);
     EvSchedulerStart].
Proof. vm_compute. reflexivity. Qed.

(** A one-time post dated before 1970 is refused by the sample engine
    and skipped. *)
Example sample_old_post_skipped :
  schedule_post Sample.world 0
    (JObj {[ "text" := JStr "Moon landing"; "time" := JStr "1969-07-20 20:17:00" ]})
    Sample.poster
  = (Raise ValueError, Sample.poster, []).
Proof. vm_compute. reflexivity. Qed.

Example sample_text_post_sent :
  trace (_send_post Sample.world Sample.daily_post (set_bot BotHandle Sample.poster))
  = [EvSendMessage (Some "-1001") (JStr "Good morning") "HTML";
     LogInfo "Sent message: " (ArgValue (JStr "Good morning"))].
Proof. vm_compute. reflexivity. Qed.

Example sample_initialize_jobs :
  (job_id <$> jobs (scheduler (final (initialize Sample.world (set_bot BotHandle Sample.poster)))))
  = ["post_1"; "post_2"].
Proof. vm_compute. reflexivity. Qed.

(* ================================================================== *)
(** ** Properties *)
(* ================================================================== *)

(** Unfolds the monad so that a run becomes a nest of matches on the
    collaborators' answers. *)
Ltac unfold_run :=
  unfold outcome, final, trace, try_except, bind, lift, ret, raise, emit, gets,
         modify, call in *; simpl in *.

(** Splits on the answer scrutinised at the head of the goal. *)
Ltac split_answer :=
  match goal with
  | |- context [match ?x with _ => _ end] =>
      lazymatch x with
      | context [match _ with _ => _ end] => fail
      | _ => destruct x eqn:?
      end
  end.

(** Decides a closed equation by evaluation. *)
Ltac by_evaluation := vm_compute; reflexivity.

(** Rewrites with the known answers of the collaborators, as far as the
    run asks for them. *)
Ltac use_answers :=
  repeat match goal with
         | H : ?l = _ |- context [?l] => rewrite H; simpl
         end.

(** A log line that differs from every line of a short trace. *)
Ltac absent_line :=
  intros; rewrite ?not_elem_of_cons; repeat split; try discriminate;
  apply not_elem_of_nil.

(** Closes the conjuncts left once every answer is known. *)
Ltac finish_cases :=
  repeat split; intros;
  repeat match goal with
         | H : _ /\ _ |- _ => destruct H
         | H : is_Some None |- _ => destruct H as [? ?]
         end;
  simplify_eq; try done; try congruence; eauto.

Lemma count_app p (t1 t2 : list event) :
  count p (t1 ++ t2) = (count p t1 + count p t2)%nat.
Proof. unfold count. by rewrite List.filter_app, length_app. Qed.

Section Dispatch.

Variable W : World.

(** The image send catches everything itself: it returns normally,
    leaves the object alone, and issues at most one upload and nothing
    else that leaves the process. *)
Lemma send_media_returns caption media_path self :
  exists t, _send_media W caption media_path self = (Ok tt, self, t)
            /\ (count is_upload t <= 1)%nat
            /\ count is_chat_message t = 0%nat
            /\ count is_reply t = 0%nat.
Proof.
  unfold _send_media. unfold_run.
  repeat (split_answer; simpl; try match goal with u : unit |- _ => destruct u end);
    eexists; (split; [reflexivity |]); vm_compute; repeat split; lia.
Qed.

(** The text send issues one chat message when there is a bot and none
    otherwise, never an upload, and leaves the object alone whether it
    returns or raises. *)
Lemma send_text_run text self :
  exists r t, _send_text W text self = (r, self, t)
              /\ count is_chat_message t = (match bot self with Some _ => 1 | None => 0 end)%nat
              /\ count is_upload t = 0%nat.
Proof.
  unfold _send_text. unfold_run.
  destruct (bot self); [| by eexists _, _].
  repeat (split_answer; simpl); eexists; eexists; (split; [reflexivity |]);
    vm_compute; split; reflexivity.
Qed.

(** Dispatch of a post with both keys is the image send. *)
Lemma send_post_media (post : gmap string json) text media self :
  post !! "text" = Some text -> post !! "media" = Some media ->
  _send_post W post self = _send_media W text media self.
Proof.
  intros Htext Hmedia. unfold _send_post, dict_getitem, getitem.
  rewrite bool_decide_eq_true_2 by eauto. rewrite Htext, Hmedia.
  destruct (send_media_returns text media self) as (t & Hrun & _).
  unfold_run. by rewrite Hrun.
Qed.

(** Dispatch of a post with a text and no media is the text send under
    the handler of dispatch. *)
Lemma send_post_text (post : gmap string json) text self :
  post !! "text" = Some text -> post !! "media" = None ->
  _send_post W post self
  = try_except (_send_text W text)
               (fun e => emit (LogError "Send post error: " (ArgExn e))) self.
Proof.
  intros Htext Hmedia. unfold _send_post, dict_getitem, getitem.
  rewrite bool_decide_eq_false_2 by (rewrite Hmedia; intros [? ?]; done).
  rewrite Htext.
  destruct (send_text_run text self) as (r & t & Hrun & _).
  unfold_run. rewrite Hrun. by destruct r as [[]|e].
Qed.

(** Dispatch of a post without a text stops at the missing key. *)
Lemma send_post_no_text (post : gmap string json) self :
  post !! "text" = None ->
  _send_post W post self
  = (Ok tt, self, [LogError "Send post error: " (ArgExn (KeyError "text"))]).
Proof.
  intros Htext. unfold _send_post, dict_getitem, getitem. rewrite Htext.
  unfold_run. by case_bool_decide.
Qed.

(** C3.  Dispatch sends a photo when the post has a [media] key and a
    text otherwise, and always returns normally: the image send logs its
    own errors, and an error of the text send is logged by dispatch. *)
Theorem send_post_never_raises (post : gmap string json) self :
  outcome (_send_post W post self) = Ok tt
  /\ final (_send_post W post self) = self
  /\ (is_Some (post !! "media") ->
        count is_chat_message (trace (_send_post W post self)) = 0%nat
        /\ forall text media,
             post !! "text" = Some text -> post !! "media" = Some media ->
             _send_post W post self = _send_media W text media self)
  /\ (post !! "media" = None ->
        count is_upload (trace (_send_post W post self)) = 0%nat
        /\ forall text,
             post !! "text" = Some text ->
             match _send_text W text self with
             | (Ok _, _, t) => _send_post W post self = (Ok tt, self, t)
             | (Raise e, _, t) =>
                 _send_post W post self
                 = (Ok tt, self, t ++ [LogError "Send post error: " (ArgExn e)])
             end).
Proof.
  destruct (post !! "text") as [text|] eqn:Htext.
  - destruct (post !! "media") as [media|] eqn:Hmedia.
    + rewrite (send_post_media post text media self Htext Hmedia).
      destruct (send_media_returns text media self) as (t & Hrun & _ & Hchat & _).
      rewrite Hrun. repeat split; try done.
      intros; simplify_eq. by rewrite Hrun.
    + rewrite (send_post_text post text self Htext Hmedia).
      destruct (send_text_run text self) as (r & t & Hrun & _ & Hup).
      unfold try_except. rewrite Hrun.
      destruct r as [[]|e]; unfold_run;
        (repeat split; try done; try (intros [? ?]; done);
         intros; simplify_eq; rewrite ?count_app, ?Hup, ?Hrun; done).
  - rewrite (send_post_no_text post self Htext).
    repeat split; try done.
Qed.

(** C10.  A post without a [text] key is dispatched without raising and
    without any request leaving the process: the [KeyError] is logged by
    dispatch and nothing else happens. *)
Theorem send_post_without_text (post : gmap string json) self :
  post !! "text" = None ->
  _send_post W post self
  = (Ok tt, self, [LogError "Send post error: " (ArgExn (KeyError "text"))])
  /\ count is_network_call (trace (_send_post W post self)) = 0%nat.
Proof.
  intros Htext. by rewrite (send_post_no_text post self Htext).
Qed.

(** C6.  When the resolved media path does not exist, the image send
    logs one error and stops: no upload is issued, and a post dispatched
    with that media makes no network call and logs exactly one error. *)
Theorem missing_media_aborts_send caption raw full_path self :
  path_resolve W raw = Ok full_path ->
  path_exists W full_path = Ok false ->
  _send_media W caption (JStr raw) self
  = (Ok tt, self, [LogError "Media file not found: " (ArgPath full_path)])
  /\ forall post : gmap string json,
       post !! "media" = Some (JStr raw) ->
       outcome (_send_post W post self) = Ok tt
       /\ count is_network_call (trace (_send_post W post self)) = 0%nat
       /\ count is_log_error (trace (_send_post W post self)) = 1%nat.
Proof.
  intros Hres Hex.
  assert (forall c, _send_media W c (JStr raw) self
          = (Ok tt, self, [LogError "Media file not found: " (ArgPath full_path)])) as Hrun.
  { intros c. unfold _send_media. unfold_run. by rewrite Hres, Hex. }
  split; [apply Hrun |].
  intros post Hmedia.
  destruct (post !! "text") as [text|] eqn:Htext.
  - by rewrite (send_post_media post text (JStr raw) self Htext Hmedia), Hrun.
  - by rewrite (send_post_no_text post self Htext).
Qed.

End Dispatch.

Section Loading.

Variable W : World.

(** The validation answers from the file system alone and leaves the
    object as it was. *)
Lemma validate_run (path : string) :
  exists (r : option string) (t : list event),
    forall self, _validate_image_path W path self = (Ok r, self, t).
Proof.
  unfold _validate_image_path. unfold_run.
  destruct (path_resolve W path) as [p|e]; simpl; [| by eexists _, _].
  destruct (path_is_file W p) as [[|]|e]; simpl; [| by eexists _, _ ..].
  destruct (os_access_R_OK W p) as [[|]|e]; simpl; by eexists _, _.
Qed.

(** C7.  The validation returns the resolved path exactly when the path
    resolves to a regular file that can be read, and nothing otherwise:
    [is_file] is false for a path that does not exist and for a
    directory.  Its answer depends on the path and the file system only;
    it leaves the object unchanged and its only action is one error line
    when it returns nothing. *)
Theorem validate_image_path_spec (path : string) :
  exists (r : option string) (t : list event),
    (forall self, _validate_image_path W path self = (Ok r, self, t))
    /\ (forall p, r = Some p <->
                  path_resolve W path = Ok p
                  /\ path_is_file W p = Ok true
                  /\ os_access_R_OK W p = Ok true)
    /\ (forall p, path_resolve W path = Ok p -> path_is_file W p = Ok false -> r = None)
    /\ (forall p, path_resolve W path = Ok p -> os_access_R_OK W p = Ok false -> r = None)
    /\ (is_Some r -> t = [])
    /\ (r = None -> exists msg arg, t = [LogError msg arg]).
Proof.
  unfold _validate_image_path. unfold_run.
  destruct (path_resolve W path) as [p|e] eqn:Hres; simpl.
  2:{ exists None, [LogError "Path validation error: " (ArgExn e)]. finish_cases. }
  destruct (path_is_file W p) as [[|]|e] eqn:Hfile; simpl.
  - destruct (os_access_R_OK W p) as [[|]|e] eqn:Hacc; simpl.
    + exists (Some p), []. finish_cases.
    + exists None, [LogError "Invalid image path: " (ArgPath p)]. finish_cases.
    + exists None, [LogError "Path validation error: " (ArgExn e)]. finish_cases.
  - exists None, [LogError "Invalid image path: " (ArgPath p)]. finish_cases.
  - exists None, [LogError "Path validation error: " (ArgExn e)]. finish_cases.
Qed.

(** Loading always returns a dict and leaves the object as it was. *)
Lemma load_config_run self :
  exists cfg t, _load_config W self = (Ok cfg, self, t).
Proof.
  unfold _load_config, get_method, strip_method.
  destruct (load_config_json W) as [[| | | | |l|m]|e]; unfold_run; try by eexists _, _.
  destruct (dict_get m "image_path" (JStr "")); simpl; try by eexists _, _.
  destruct (validate_run (strip s)) as (r & t & Hrun).
  rewrite Hrun. simpl. by eexists _, _.
Qed.

(** C4.  Loading never raises.  When reading or parsing [config.json]
    fails, it logs the failure and returns the fallback dict, whose post
    list is empty and which has no default image. *)
Theorem load_config_never_raises :
  (forall self, exists cfg t, _load_config W self = (Ok cfg, self, t))
  /\ (forall e, load_config_json W = Raise e ->
       forall self,
         _load_config W self
         = (Ok fallback_config, self, [LogError "Config loading failed: " (ArgExn e)]))
  /\ dict_get fallback_config "scheduled_posts" (JArr []) = JArr []
  /\ dict_get fallback_config "image_path" JNull = JNull
  /\ (exists self t, __init__ W = (Ok self, t)).
Proof.
  split; [apply load_config_run |].
  split.
  { intros e He self. unfold _load_config. unfold_run. by rewrite He. }
  repeat split; try done.
  unfold __init__.
  match goal with |- context [_load_config W ?s] =>
    destruct (load_config_run s) as (cfg & t & ->) end.
  by eexists _, _.
Qed.

End Loading.

(** *** The recurrence table, read through the engine *)

Lemma fires_daily post_time t :
  fires (trigger_kwargs post_time (JStr "daily")) t = true
  <-> hour t = hour post_time /\ minute t = minute post_time /\ second t = 0.
Proof.
  unfold fires; simpl. rewrite !andb_true_iff, !Z.eqb_eq. tauto.
Qed.

Lemma fires_weekly post_time t :
  fires (trigger_kwargs post_time (JStr "weekly")) t = true
  <-> weekday t = weekday post_time
      /\ hour t = hour post_time /\ minute t = minute post_time /\ second t = 0.
Proof.
  unfold fires, trigger_kwargs, field_matches, day_matches; simpl.
  rewrite !andb_true_iff, !Z.eqb_eq. tauto.
Qed.

Lemma fires_monthly post_time t :
  fires (trigger_kwargs post_time (JStr "monthly")) t = true
  <-> day t = day post_time
      /\ hour t = hour post_time /\ minute t = minute post_time /\ second t = 0.
Proof.
  unfold fires; simpl. rewrite !andb_true_iff, !Z.eqb_eq. tauto.
Qed.

Lemma eq_str_false (v : json) (lit : string) : v <> JStr lit -> eq_str v lit = false.
Proof.
  destruct v; simpl; try done.
  intros Hne. apply String.eqb_neq. congruence.
Qed.

Lemma fires_once post_time repeat t :
  repeat <> JStr "daily" -> repeat <> JStr "weekly" -> repeat <> JStr "monthly" ->
  fires (trigger_kwargs post_time repeat) t = true
  <-> t = mk_datetime (year post_time) (month post_time) (day post_time)
                      (hour post_time) (minute post_time) 0.
Proof.
  intros Hd Hw Hm. unfold trigger_kwargs.
  rewrite !eq_str_false by done.
  unfold fires; simpl. rewrite !andb_true_iff, !Z.eqb_eq.
  destruct t; simpl. split.
  - intros ((((((-> & ->) & ->) & _) & ->) & ->) & ->). done.
  - intros [= -> -> -> -> -> ->]. tauto.
Qed.

Section Scheduling.

Variable W : World.

(** A post whose time parses and whose trigger is accepted is
    registered, unless the running engine already has its id. *)
Lemma schedule_post_good idx (post : gmap string json) stamp post_time self :
  post !! "time" = Some (JStr stamp) ->
  strptime W stamp = Ok post_time ->
  CronTrigger W (trigger_kwargs post_time (dict_get post "repeat" (JStr "once"))) = Ok tt ->
  running (scheduler self) && has_job ("post_" +:+ pretty idx) (scheduler self) = false ->
  schedule_post W idx (JObj post) self
  = (Ok tt,
     with_scheduler (mk_scheduler (running (scheduler self))
                                  (jobs (scheduler self) ++ [job_for idx post post_time])) self,
     []).
Proof.
  intros Htime Hparse Htrig Hfree.
  unfold schedule_post, getitem, get_method, add_job. unfold_run.
  by rewrite Htime, Hparse, Htrig, Hfree.
Qed.

(** On a stopped engine a post is either registered, as one more job at
    the end, or refused with an exception and no other effect. *)
Lemma schedule_post_cases idx post self :
  running (scheduler self) = false ->
  (exists e, schedule_post W idx post self = (Raise e, self, []))
  \/ (exists j, schedule_post W idx post self
               = (Ok tt, with_scheduler (mk_scheduler false (jobs (scheduler self) ++ [j])) self, [])).
Proof.
  intros Hstop.
  unfold schedule_post, getitem, get_method, add_job. unfold_run.
  destruct post as [| | | | | |m]; simpl; try (left; by eexists).
  destruct (m !! "time") as [[| | | |stamp| |]|]; simpl; try (left; by eexists).
  destruct (strptime W stamp) as [post_time|e]; simpl; [| left; by eexists].
  destruct (CronTrigger W _) as [[]|e]; simpl; [| left; by eexists].
  rewrite Hstop. simpl. right. by eexists.
Qed.

(** The loop on a stopped engine: it returns normally, changes nothing
    but the job list, logs one error per post it skips, and registers
    every post that [schedule_post_good] describes. *)
Lemma schedule_from_spec posts : forall idx self,
  running (scheduler self) = false ->
  exists new t,
    schedule_from W idx posts self
    = (Ok tt, with_scheduler (mk_scheduler false (jobs (scheduler self) ++ new)) self, t)
    /\ Forall schedule_failure t
    /\ (length new + length t = length posts)%nat
    /\ (forall i (post : gmap string json) stamp post_time,
          posts !! i = Some (JObj post) ->
          post !! "time" = Some (JStr stamp) ->
          strptime W stamp = Ok post_time ->
          CronTrigger W (trigger_kwargs post_time (dict_get post "repeat" (JStr "once")))
          = Ok tt ->
          job_for (idx + i) post post_time ∈ new).
Proof.
  induction posts as [|post rest IH]; intros idx self Hstop.
  - exists [], []. simpl. unfold ret. rewrite app_nil_r.
    destruct self as [? ? ? [? ?] ? ? ?]; simpl in *; subst.
    repeat split; try done.
  - simpl. unfold bind at 1. unfold try_except.
    destruct (schedule_post_cases idx post self Hstop) as [[e Hrun]|[j Hrun]].
    + (* skipped *)
      rewrite Hrun. unfold emit at 1.
      destruct (IH (S idx) self Hstop) as (new & t & Hrest & Hlog & Hlen & Hreg).
      rewrite Hrest. exists new, ([LogError "Failed to schedule post: " (ArgExn e)] ++ t).
      repeat split; try done.
      * constructor; [by eexists | done].
      * simpl. lia.
      * intros [|i] m stamp post_time Hi Htime Hparse Htrig; simpl in Hi.
        -- simplify_eq.
           rewrite (schedule_post_good idx m stamp post_time self) in Hrun; try done.
           by rewrite Hstop.
        -- replace (idx + S i)%nat with (S idx + i)%nat by lia. eauto.
    + (* registered *)
      rewrite Hrun.
      set (self1 := with_scheduler _ self) in *.
      destruct (IH (S idx) self1) as (new & t & Hrest & Hlog & Hlen & Hreg); [done |].
      rewrite Hrest. exists (j :: new), t. subst self1. simpl.
      rewrite <- app_assoc. simpl.
      repeat split; try done.
      * simpl. lia.
      * intros [|i] m stamp post_time Hi Htime Hparse Htrig; simpl in Hi.
        -- simplify_eq.
           rewrite (schedule_post_good idx m stamp post_time self) in Hrun; try done;
             [| by rewrite Hstop].
           rewrite Hstop in Hrun. simplify_eq.
           rewrite Nat.add_0_r. apply list_elem_of_here.
        -- replace (idx + S i)%nat with (S idx + i)%nat by lia.
           apply list_elem_of_further. eauto.
Qed.

(** C1.  The job registered for a post carries the trigger of the
    recurrence table: [daily] fires every day at the time's hour and
    minute, [weekly] on the time's weekday, [monthly] on its day of the
    month, and [once], a missing or any other repeat value at the one
    instant with the time's year, month, day, hour and minute. *)
Theorem trigger_follows_recurrence_table
    idx (post : gmap string json) stamp post_time self :
  post !! "time" = Some (JStr stamp) ->
  strptime W stamp = Ok post_time ->
  CronTrigger W (trigger_kwargs post_time (dict_get post "repeat" (JStr "once"))) = Ok tt ->
  running (scheduler self) && has_job ("post_" +:+ pretty idx) (scheduler self) = false ->
  let repeat := dict_get post "repeat" (JStr "once") in
  let trigger := trigger_kwargs post_time repeat in
  schedule_post W idx (JObj post) self
  = (Ok tt,
     with_scheduler
       (mk_scheduler (running (scheduler self))
                     (jobs (scheduler self) ++ [mk_job ("post_" +:+ pretty idx) trigger post]))
       self,
     [])
  /\ (repeat = JStr "daily" ->
      forall t, fires trigger t = true
                <-> hour t = hour post_time /\ minute t = minute post_time /\ second t = 0)
  /\ (repeat = JStr "weekly" ->
      forall t, fires trigger t = true
                <-> weekday t = weekday post_time
                    /\ hour t = hour post_time /\ minute t = minute post_time
                    /\ second t = 0)
  /\ (repeat = JStr "monthly" ->
      forall t, fires trigger t = true
                <-> day t = day post_time
                    /\ hour t = hour post_time /\ minute t = minute post_time
                    /\ second t = 0)
  /\ (repeat <> JStr "daily" -> repeat <> JStr "weekly" -> repeat <> JStr "monthly" ->
      forall t, fires trigger t = true
                <-> t = mk_datetime (year post_time) (month post_time) (day post_time)
                                    (hour post_time) (minute post_time) 0).
Proof.
  intros Htime Hparse Htrig Hfree repeat trigger.
  split; [by apply (schedule_post_good idx post stamp) |].
  subst trigger.
  split; [intros ->; intros t; apply fires_daily |].
  split; [intros ->; intros t; apply fires_weekly |].
  split; [intros ->; intros t; apply fires_monthly |].
  intros Hd Hw Hm t. by apply fires_once.
Qed.


(** C8.  Without a bot, [initialize] raises at its first statement: the
    object, and with it the readiness flag and the job list, is what it
    was, and nothing has been logged, requested or registered. *)
Theorem initialize_requires_bot self :
  bot self = None ->
  initialize W self = (Raise (RuntimeError "Bot instance not set"), self, [])
  /\ _is_ready (final (initialize W self)) = _is_ready self
  /\ jobs (scheduler (final (initialize W self))) = jobs (scheduler self).
Proof.
  intros Hbot.
  assert (initialize W self = (Raise (RuntimeError "Bot instance not set"), self, [])) as Hrun.
  { unfold initialize. unfold_run. by rewrite Hbot. }
  by rewrite Hrun.
Qed.

(** With a bot whose identity is confirmed, a poster with a stopped
    engine and a list of posts becomes ready, with the engine running. *)
Lemma initialize_ready (posts : list json) b name self :
  bot self = Some b ->
  get_me W = Ok name ->
  dict_get (config self) "scheduled_posts" (JArr []) = JArr posts ->
  running (scheduler self) = false ->
  exists self1,
    outcome (initialize W self) = Ok tt
    /\ final (initialize W self) = self1
    /\ _is_ready self1 = true
    /\ running (scheduler self1) = true
    /\ (length (jobs (scheduler self1)) <= length (jobs (scheduler self)) + length posts)%nat.
Proof.
  intros Hbot Hme Hposts Hstop.
  destruct (schedule_from_spec posts 0%nat self Hstop) as (new & t & Hrun & _ & Hlen & _).
  unfold initialize, _setup_scheduler, scheduler_start. unfold_run.
  rewrite Hbot, Hme, Hposts. simpl. rewrite Hrun. simpl.
  eexists. repeat split; try done. simpl. rewrite length_app. lia.
Qed.

End Scheduling.

(** C9, amended.  [shutdown] returns normally with the readiness flag
    cleared; it asks the engine to stop, without waiting, only when the
    engine reports that it runs, and the engine itself is as it was when
    [shutdown] returns: the stop is performed later by the event loop.  A
    second [shutdown] returns normally and leaves the poster as the first
    one left it.  Once the loop has performed the stop the engine is
    stopped, and a [shutdown] from then on, as from any stopped engine,
    asks the engine nothing, changes nothing and only logs. *)
Theorem shutdown_requests_stop self :
  outcome (shutdown self) = Ok tt
  /\ _is_ready (final (shutdown self)) = false
  /\ scheduler (final (shutdown self)) = scheduler self
  /\ trace (shutdown self)
     = (if running (scheduler self) then [EvSchedulerShutdown false] else [])
       ++ [LogInfo "Scheduler stopped." ArgNone]
  /\ outcome (shutdown (final (shutdown self))) = Ok tt
  /\ final (shutdown (final (shutdown self))) = final (shutdown self)
  /\ (running (scheduler self) = true ->
      let settled := final (perform_stop (final (shutdown self))) in
      outcome (perform_stop (final (shutdown self))) = Ok tt
      /\ running (scheduler settled) = false
      /\ _is_ready settled = false
      /\ shutdown settled = (Ok tt, settled, [LogInfo "Scheduler stopped." ArgNone]))
  /\ (running (scheduler self) = false ->
      shutdown (final (shutdown self))
      = (Ok tt, final (shutdown self), [LogInfo "Scheduler stopped." ArgNone])).
Proof.
  destruct self as [b tok chat [[|] js] cfg delay ready];
    repeat split; try done; by intros [=].
Qed.

Section Command.

Variable W : World.

(** C2.  [send_default_image] does one of three things: before
    readiness it replies that the bot is not ready; ready and without a
    default image it replies that none is configured; ready and with a
    default image it runs the image send once, with the fixed caption
    and the configured path, and replies nothing.  In the first two
    cases the reply is its only action.  In the third there is at most
    one upload, and exactly one, of the resolved path with the fixed
    caption, when the file is there and can be opened. *)
Theorem send_default_image_three_behaviours self :
  (_is_ready self = false ->
   send_default_image W self
   = (reply_text W "Bot not ready yet.", self, [EvReplyText "Bot not ready yet."]))
  /\ (_is_ready self = true ->
      truthy (dict_get (config self) "image_path" JNull) = false ->
      send_default_image W self
      = (reply_text W "No default image configured.", self,
         [EvReplyText "No default image configured."]))
  /\ (_is_ready self = true ->
      forall image,
        config self !! "image_path" = Some image -> truthy image = true ->
        send_default_image W self
        = _send_media W (JStr "Here's the requested image!") image self
        /\ outcome (send_default_image W self) = Ok tt
        /\ count is_reply (trace (send_default_image W self)) = 0%nat
        /\ count is_chat_message (trace (send_default_image W self)) = 0%nat
        /\ (count is_upload (trace (send_default_image W self)) <= 1)%nat
        /\ (forall raw full_path,
              image = JStr raw ->
              path_resolve W raw = Ok full_path ->
              path_exists W full_path = Ok true ->
              open_rb W full_path = Ok tt ->
              List.filter is_upload (trace (send_default_image W self))
              = [EvHttpPost ("https://api.telegram.org/bot" +:+ py_str (token self)
                                                            +:+ "/sendPhoto")
                            (chat_id self) (JStr "Here's the requested image!") full_path])).
Proof.
  split; [| split].
  - intros Hready. unfold send_default_image. unfold_run. by rewrite Hready.
  - intros Hready Hnone. unfold send_default_image, bind, gets, call.
    rewrite Hready. cbn [negb]. by rewrite Hnone.
  - intros Hready image Himage Htrue.
    assert (send_default_image W self
            = _send_media W (JStr "Here's the requested image!") image self) as Hrun.
    { unfold send_default_image, dict_get, bind, gets.
      rewrite Hready. cbn [negb]. cbv beta. rewrite Himage.
      change (default JNull (Some image)) with image. rewrite Htrue. cbn [negb].
      destruct (_send_media W _ image self) as [[? ?] ?]. done. }
    rewrite Hrun.
    destruct (send_media_returns W (JStr "Here's the requested image!") image self)
      as (t & Hmedia & Hup & Hchat & Hreply).
    rewrite Hmedia. repeat split; try done.
    intros raw full_path -> Hres Hex Hopen.
    revert Hmedia. unfold _send_media. unfold_run.
    rewrite Hres, Hex, Hopen. simpl.
    destruct (requests_post W _ _ _ _) as [resp|e]; simpl.
    + destruct (status_code resp =? 200); simpl; by intros [= <-].
    + by intros [= <-].
Qed.

End Command.

(* ================================================================== *)
(** ** The theorems at work on the sample machine *)
(* ================================================================== *)

Lemma trigger_follows_recurrence_table_witness :
  Sample.daily_post !! "time" = Some (JStr "2024-01-15 09:30:00")
  /\ strptime Sample.world "2024-01-15 09:30:00" = Ok (mk_datetime 2024 1 15 9 30 0)
  /\ jobs (scheduler (final (schedule_post Sample.world 1 (JObj Sample.daily_post) Sample.poster)))
     = [mk_job "post_1" (mk_cron None None (Some DayStar) None 9 30) Sample.daily_post]
  /\ (fires (trigger_kwargs (mk_datetime 2024 1 15 9 30 0) (JStr "daily"))
            (mk_datetime 2031 12 24 9 30 0) = true
      <-> 9 = 9 /\ 30 = 30 /\ 0 = 0).
Proof.
  split; [by_evaluation |].
  split; [by_evaluation |].
  pose proof (trigger_follows_recurrence_table Sample.world 1%nat Sample.daily_post
                "2024-01-15 09:30:00" (mk_datetime 2024 1 15 9 30 0) Sample.poster
                ltac:(by_evaluation) ltac:(by_evaluation) ltac:(by_evaluation)
                ltac:(by_evaluation)) as (Hrun & Hdaily & _).
  split.
  - rewrite Hrun. by_evaluation.
  - apply (Hdaily ltac:(by_evaluation) (mk_datetime 2031 12 24 9 30 0)).
Defined.

Lemma send_default_image_three_behaviours_witness :
  _is_ready (with_ready true Sample.poster) = true
  /\ config (with_ready true Sample.poster) !! "image_path" = Some (JStr "/srv/bot/banner.png")
  /\ List.filter is_upload (trace (send_default_image Sample.world (with_ready true Sample.poster)))
     = [EvHttpPost "https://api.telegram.org/bot123:ABC/sendPhoto" (Some "-1001")
                   (JStr "Here's the requested image!") "/srv/bot/banner.png"].
Proof.
  split; [reflexivity |].
  split; [by_evaluation |].
  pose proof (send_default_image_three_behaviours Sample.world (with_ready true Sample.poster))
    as (_ & _ & Hsend).
  pose proof (Hsend eq_refl (JStr "/srv/bot/banner.png") ltac:(by_evaluation) eq_refl)
    as (_ & _ & _ & _ & _ & Hup).
  exact (Hup "/srv/bot/banner.png" "/srv/bot/banner.png" eq_refl
             ltac:(by_evaluation) ltac:(by_evaluation) ltac:(by_evaluation)).
Defined.

Lemma send_post_never_raises_witness :
  Sample.daily_post !! "media" = None
  /\ outcome (_send_post Sample.world Sample.daily_post Sample.poster) = Ok tt
  /\ count is_upload (trace (_send_post Sample.world Sample.daily_post Sample.poster)) = 0%nat.
Proof.
  split; [by_evaluation |].
  pose proof (send_post_never_raises Sample.world Sample.daily_post Sample.poster)
    as (Hok & _ & _ & Htext).
  split; [exact Hok |].
  exact (proj1 (Htext ltac:(by_evaluation))).
Defined.

Lemma load_config_never_raises_witness :
  load_config_json Sample.world_without_config = Raise OSError
  /\ _load_config Sample.world_without_config Sample.poster
     = (Ok fallback_config, Sample.poster,
        [LogError "Config loading failed: " (ArgExn OSError)]).
Proof.
  split; [reflexivity |].
  pose proof (load_config_never_raises Sample.world_without_config) as (_ & Hfail & _).
  exact (Hfail OSError eq_refl Sample.poster).
Defined.


Lemma missing_media_aborts_send_witness :
  path_resolve Sample.world "pics/missing.png" = Ok "/srv/bot/pics/missing.png"
  /\ path_exists Sample.world "/srv/bot/pics/missing.png" = Ok false
  /\ _send_media Sample.world (JStr "Weekly picture") (JStr "pics/missing.png") Sample.poster
     = (Ok tt, Sample.poster,
        [LogError "Media file not found: " (ArgPath "/srv/bot/pics/missing.png")])
  /\ count is_network_call (trace (_send_post Sample.world Sample.photo_post Sample.poster))
     = 0%nat.
Proof.
  split; [by_evaluation |].
  split; [by_evaluation |].
  pose proof (missing_media_aborts_send Sample.world (JStr "Weekly picture")
                "pics/missing.png" "/srv/bot/pics/missing.png" Sample.poster
                ltac:(by_evaluation) ltac:(by_evaluation)) as (Hrun & Hpost).
  split; [exact Hrun |].
  exact (proj1 (proj2 (Hpost Sample.photo_post ltac:(by_evaluation)))).
Defined.

Lemma validate_image_path_spec_witness :
  path_resolve Sample.world "banner.png" = Ok "/srv/bot/banner.png"
  /\ path_is_file Sample.world "/srv/bot/banner.png" = Ok true
  /\ os_access_R_OK Sample.world "/srv/bot/banner.png" = Ok true
  /\ outcome (_validate_image_path Sample.world "banner.png" Sample.poster)
     = Ok (Some "/srv/bot/banner.png").
Proof.
  split; [by_evaluation |].
  split; [by_evaluation |].
  split; [by_evaluation |].
  pose proof (validate_image_path_spec Sample.world "banner.png") as (r & t & Hrun & Hiff & _).
  rewrite Hrun. unfold outcome. simpl. f_equal.
  apply Hiff. repeat split; by_evaluation.
Defined.

Lemma initialize_requires_bot_witness :
  bot Sample.poster = None
  /\ initialize Sample.world Sample.poster
     = (Raise (RuntimeError "Bot instance not set"), Sample.poster, []).
Proof.
  split; [reflexivity |].
  exact (proj1 (initialize_requires_bot Sample.world Sample.poster eq_refl)).
Defined.

Lemma send_post_without_text_witness :
  Sample.untitled_post !! "text" = None
  /\ _send_post Sample.world Sample.untitled_post Sample.poster
     = (Ok tt, Sample.poster, [LogError "Send post error: " (ArgExn (KeyError "text"))]).
Proof.
  split; [by_evaluation |].
  exact (proj1 (send_post_without_text Sample.world Sample.untitled_post Sample.poster
                  ltac:(by_evaluation))).
Defined.

(* ================================================================== *)
(** ** Further properties of the scheduler setup *)
(* ================================================================== *)

Section SetupInAnyState.

Variable W : World.

Lemma job_id_inj (a b : nat) : "post_" +:+ pretty a = "post_" +:+ pretty b -> a = b.
Proof. simpl. intros [= H]. by apply (inj pretty). Qed.

(** In any engine state a post is either refused, with no effect, or
    appended as the job of a dict whose time parsed. *)
Lemma schedule_post_frame idx post self :
  (exists e, schedule_post W idx post self = (Raise e, self, []))
  \/ (exists (m : gmap string json) stamp post_time,
        post = JObj m
        /\ m !! "time" = Some (JStr stamp)
        /\ strptime W stamp = Ok post_time
        /\ CronTrigger W (trigger_kwargs post_time (dict_get m "repeat" (JStr "once"))) = Ok tt
        /\ schedule_post W idx post self
           = (Ok tt,
              with_scheduler (mk_scheduler (running (scheduler self))
                                           (jobs (scheduler self) ++ [job_for idx m post_time]))
                             self,
              [])).
Proof.
  unfold schedule_post, getitem, get_method, add_job. unfold_run.
  destruct post as [| | | | | |m]; simpl; try (left; by eexists).
  destruct (m !! "time") as [[| | | |stamp| |]|] eqn:Htime; simpl; try (left; by eexists).
  destruct (strptime W stamp) as [post_time|e] eqn:Hparse; simpl; [| left; by eexists].
  destruct (CronTrigger W _) as [[]|e] eqn:Htrig; simpl; [| left; by eexists].
  destruct (running (scheduler self) && has_job _ (scheduler self)); [left; by eexists |].
  right. exists m, stamp, post_time. done.
Qed.

Lemma schedule_from_frame posts : forall idx self,
  exists new t,
    schedule_from W idx posts self
    = (Ok tt,
       with_scheduler (mk_scheduler (running (scheduler self)) (jobs (scheduler self) ++ new))
                      self,
       t)
    /\ Forall schedule_failure t
    /\ (length new + length t = length posts)%nat
    /\ Forall (registered_from W posts idx) new
    /\ NoDup (job_id <$> new).
Proof.
  induction posts as [|post rest IH]; intros idx self.
  - exists [], []. simpl. unfold ret. rewrite app_nil_r.
    destruct self as [? ? ? [? ?] ? ? ?]; simpl.
    repeat split; try done; constructor.
  - simpl. unfold bind at 1. unfold try_except.
    assert (forall new, Forall (registered_from W rest (S idx)) new ->
                        Forall (registered_from W (post :: rest) idx) new) as Hshift.
    { intros new Hnew. eapply Forall_impl; [exact Hnew |].
      intros j (i & m & stamp & dt & Hi & Htime & Hparse & Htrig & ->).
      exists (S i), m, stamp, dt. repeat split; try done.
      by replace (idx + S i)%nat with (S idx + i)%nat by lia. }
    destruct (schedule_post_frame idx post self)
      as [[e Hrun]|(m & stamp & dt & -> & Htime & Hparse & Htrig & Hrun)].
    + rewrite Hrun. unfold emit at 1.
      destruct (IH (S idx) self) as (new & t & Hrest & Hlog & Hlen & Hfrom & Hnodup).
      rewrite Hrest. exists new, ([LogError "Failed to schedule post: " (ArgExn e)] ++ t).
      repeat split; try done; eauto.
      * constructor; [by eexists | done].
      * simpl. lia.
    + rewrite Hrun.
      set (self1 := with_scheduler _ self) in *.
      destruct (IH (S idx) self1) as (new & t & Hrest & Hlog & Hlen & Hfrom & Hnodup).
      rewrite Hrest. exists (job_for idx m dt :: new), t. subst self1. simpl.
      rewrite <- app_assoc. simpl.
      repeat split; try done.
      * simpl. lia.
      * constructor; [| eauto].
        exists 0%nat, m, stamp, dt. rewrite Nat.add_0_r. done.
      * constructor; [| done].
        intros Hin. apply list_elem_of_fmap in Hin as (j & Hid & Hj).
        rewrite Forall_forall in Hfrom.
        destruct (Hfrom j Hj) as (i & ? & ? & ? & _ & _ & _ & _ & ->).
        simpl in Hid. apply job_id_inj in Hid. lia.
Qed.

End SetupInAnyState.

Lemma with_scheduler_id self :
  with_scheduler (mk_scheduler (running (scheduler self)) (jobs (scheduler self))) self = self.
Proof. by destruct self as [? ? ? [? ?] ? ? ?]. Qed.

Section Initialisation.

Variable W : World.

(** The shape of every run of [initialize]: it returns with the
    readiness flag set and the engine started from a stopped state, or
    it raises having changed at most the job list. *)
Lemma initialize_shape self :
  exists r js t,
    initialize W self
    = (r,
       match r with
       | Ok _ => with_ready true (with_scheduler (mk_scheduler true js) self)
       | Raise _ => with_scheduler (mk_scheduler (running (scheduler self)) js) self
       end,
       t)
    /\ (is_Some (bot self) \/ exists e, r = Raise e)
    /\ match r with Ok _ => running (scheduler self) = false | Raise _ => True end.
Proof.
  unfold initialize, _setup_scheduler, scheduler_start. unfold_run.
  destruct (bot self) as [b|] eqn:Hbot.
  2:{ eexists (Raise _), _, _. rewrite with_scheduler_id. split; [done |]. eauto. }
  destruct (get_me W) as [name|e].
  2:{ eexists (Raise _), _, _. rewrite with_scheduler_id. split; [done |]. eauto. }
  destruct (py_iter _) as [posts|e]; simpl.
  2:{ eexists (Raise _), _, _. rewrite with_scheduler_id. split; [done |]. eauto. }
  destruct (schedule_from_frame W posts 0%nat self) as (new & t & Hrun & _).
  rewrite Hrun. simpl.
  destruct (running (scheduler self)) eqn:Hrunning; simpl.
  - eexists (Raise _), _, _. split; [done |]. eauto.
  - eexists (Ok tt), _, _. split; [done |]. eauto.
Qed.

(** X1.  In any engine state, also a running one that refuses a taken
    id, the scheduler setup returns normally for every list of posts; it
    only appends to the job list, and every post costs either one new
    job or one error line. *)
Theorem setup_scheduler_total_in_any_state (posts : list json) self :
  dict_get (config self) "scheduled_posts" (JArr []) = JArr posts ->
  exists new t,
    _setup_scheduler W self
    = (Ok tt,
       with_scheduler (mk_scheduler (running (scheduler self)) (jobs (scheduler self) ++ new))
                      self,
       t)
    /\ Forall schedule_failure t
    /\ (length new + length t = length posts)%nat.
Proof.
  intros Hposts.
  destruct (schedule_from_frame W posts 0%nat self) as (new & t & Hrun & Hlog & Hlen & _).
  exists new, t. unfold _setup_scheduler. unfold_run.
  rewrite Hposts. simpl. by rewrite Hrun.
Qed.

(** X2.  Nothing is registered for a post that fails: every job that
    the setup adds is the job of a dict of the list whose time parsed and
    whose trigger the engine accepted, under the id of its position. *)
Theorem setup_scheduler_registers_only_parsed_posts (posts : list json) self :
  dict_get (config self) "scheduled_posts" (JArr []) = JArr posts ->
  exists new,
    jobs (scheduler (final (_setup_scheduler W self))) = jobs (scheduler self) ++ new
    /\ forall j, j ∈ new ->
         exists (i : nat) (post : gmap string json) stamp post_time,
           posts !! i = Some (JObj post)
           /\ post !! "time" = Some (JStr stamp)
           /\ strptime W stamp = Ok post_time
           /\ CronTrigger W (trigger_kwargs post_time (dict_get post "repeat" (JStr "once")))
              = Ok tt
           /\ j = mk_job ("post_" +:+ pretty i)
                         (trigger_kwargs post_time (dict_get post "repeat" (JStr "once")))
                         post.
Proof.
  intros Hposts.
  destruct (schedule_from_frame W posts 0%nat self) as (new & t & Hrun & _ & _ & Hfrom & _).
  exists new. unfold _setup_scheduler. unfold_run.
  rewrite Hposts. simpl. rewrite Hrun. simpl. split; [done |].
  intros j Hj. rewrite Forall_forall in Hfrom.
  destruct (Hfrom j Hj) as (i & post & stamp & dt & ? & ? & ? & ? & ->).
  exists i, post, stamp, dt. done.
Qed.

(** X3.  The ids that one setup hands to the engine are pairwise
    distinct: a poster constructed with an empty engine never registers
    two jobs under the same id. *)
Theorem setup_scheduler_ids_distinct (posts : list json) self :
  dict_get (config self) "scheduled_posts" (JArr []) = JArr posts ->
  jobs (scheduler self) = [] ->
  NoDup (job_id <$> jobs (scheduler (final (_setup_scheduler W self)))).
Proof.
  intros Hposts Hempty.
  destruct (schedule_from_frame W posts 0%nat self) as (new & t & Hrun & _ & _ & _ & Hnodup).
  unfold _setup_scheduler. unfold_run.
  rewrite Hposts. simpl. rewrite Hrun. simpl. by rewrite Hempty.
Qed.

(** X4.  A [scheduled_posts] entry that is not iterable (null, a
    boolean or a number) is outside the [try] of the loop: the setup
    raises [TypeError], and [initialize] raises it after confirming the
    identity, leaving the poster not started and as ready as it was. *)
Theorem initialize_rejects_non_iterable_posts (v : json) b name self :
  config self !! "scheduled_posts" = Some v ->
  (v = JNull \/ (exists x, v = JBool x) \/ (exists n, v = JInt n)
   \/ (exists m e, v = JFloat m e)) ->
  bot self = Some b ->
  get_me W = Ok name ->
  _setup_scheduler W self = (Raise TypeError, self, [])
  /\ initialize W self
     = (Raise TypeError, self, [EvGetMe; LogInfo "Bot initialized as @" (ArgStr name)]).
Proof.
  intros Hv Hkind Hbot Hme.
  unfold initialize, _setup_scheduler, dict_get. unfold_run.
  rewrite Hbot, Hme.
  destruct Hkind as [-> | [[x ->] | [[n ->] | (m & e & ->)]]];
    repeat (rewrite Hv; simpl); done.
Qed.

(** X5.  With no [scheduled_posts] key or an empty list, a poster with a
    bot and a stopped engine becomes ready: the identity is confirmed,
    the engine is started, and no job is registered. *)
Theorem initialize_without_posts b name self :
  bot self = Some b ->
  get_me W = Ok name ->
  dict_get (config self) "scheduled_posts" (JArr []) = JArr [] ->
  running (scheduler self) = false ->
  initialize W self
  = (Ok tt,
     with_ready true (with_scheduler (mk_scheduler true (jobs (scheduler self))) self),
     [EvGetMe; LogInfo "Bot initialized as @" (ArgStr name); EvSchedulerStart]).
Proof.
  intros Hbot Hme Hposts Hstop.
  unfold initialize, _setup_scheduler, scheduler_start. unfold_run.
  rewrite Hbot, Hme. repeat (rewrite Hposts; simpl). rewrite Hstop. simpl.
  rewrite ?app_nil_r. by destruct self as [? ? ? [? ?] ? ? ?].
Qed.

(** X6.  When the identity check fails, [initialize] raises that error
    at once: nothing is scheduled, the engine is not started and the
    poster is unchanged. *)
Theorem initialize_identity_failure b e self :
  bot self = Some b ->
  get_me W = Raise e ->
  initialize W self = (Raise e, self, [EvGetMe]).
Proof.
  intros Hbot Hme. unfold initialize. unfold_run. by rewrite Hbot, Hme.
Qed.

(** X7.  Readiness is set by a fully successful [initialize] only: a run
    that returns leaves the poster ready with the engine running, and a
    run that raises leaves the readiness flag and the engine's running
    state as they were. *)
Theorem initialize_sets_readiness_only_on_success self :
  match outcome (initialize W self) with
  | Ok _ =>
      _is_ready (final (initialize W self)) = true
      /\ running (scheduler (final (initialize W self))) = true
      /\ running (scheduler self) = false
      /\ is_Some (bot self)
  | Raise _ =>
      _is_ready (final (initialize W self)) = _is_ready self
      /\ running (scheduler (final (initialize W self))) = running (scheduler self)
  end.
Proof.
  destruct (initialize_shape self) as (r & js & t & Hrun & Hbot & Hstop).
  rewrite Hrun. unfold_run. destruct r as [[]|e]; simpl.
  - repeat split; try done. by destruct Hbot as [? | [? ?]].
  - done.
Qed.

End Initialisation.

(* ================================================================== *)
(** ** Further properties of the configuration loader *)
(* ================================================================== *)

Section LoadedConfig.

Variable W : World.

(** What the validation answers, and why. *)
Lemma validate_answer (path : string) :
  exists (r : option string) (t : list event),
    (forall self, _validate_image_path W path self = (Ok r, self, t))
    /\ (forall p, r = Some p <->
                 path_resolve W path = Ok p
                 /\ path_is_file W p = Ok true
                 /\ os_access_R_OK W p = Ok true)
    /\ (forall e, LogError "Config loading failed: " (ArgExn e) ∉ t).
Proof.
  unfold _validate_image_path. unfold_run.
  destruct (path_resolve W path) as [p|e] eqn:Hres; simpl.
  2:{ eexists None, _. split; [done |]. split; [| absent_line].
      intros p. split; [done |]. by intros ([=] & _). }
  destruct (path_is_file W p) as [[|]|e] eqn:Hfile; simpl.
  - destruct (os_access_R_OK W p) as [[|]|e] eqn:Hacc; simpl.
    + eexists (Some p), _. split; [done |]. split; [| absent_line].
      intros q. split; [by intros [= <-] |]. by intros ([= <-] & _).
    + eexists None, _. split; [done |]. split; [| absent_line].
      intros q. split; [done |]. intros ([= <-] & _ & Hq). congruence.
    + eexists None, _. split; [done |]. split; [| absent_line].
      intros q. split; [done |]. intros ([= <-] & _ & Hq). congruence.
  - eexists None, _. split; [done |]. split; [| absent_line].
    intros q. split; [done |]. intros ([= <-] & Hq & _). congruence.
  - eexists None, _. split; [done |]. split; [| absent_line].
    intros q. split; [done |]. intros ([= <-] & Hq & _). congruence.
Qed.

(** The default image that a loaded config carries is absent or was
    checked. *)
Lemma load_config_image_checked self cfg self1 t :
  _load_config W self = (Ok cfg, self1, t) ->
  dict_get cfg "image_path" JNull = JNull
  \/ exists path, dict_get cfg "image_path" JNull = JStr path
                  /\ path <> ""
                  /\ path_is_file W path = Ok true
                  /\ os_access_R_OK W path = Ok true.
Proof.
  unfold _load_config, get_method, strip_method.
  destruct (load_config_json W) as [[| | | | |l|m]|e]; unfold_run;
    try (intros [= <- <- <-]; left; done).
  destruct (dict_get m "image_path" (JStr "")) as [| | | |raw| |]; simpl;
    try (intros [= <- <- <-]; left; done).
  destruct (validate_answer (strip raw)) as (r & tv & Hrun & Hwhy & _).
  rewrite Hrun. simpl. intros [= <- <- <-].
  unfold dict_get. rewrite lookup_insert_eq. simpl.
  destruct r as [p|]; simpl; [| by left].
  destruct (String.eqb p "") eqn:Hempty; [by left |].
  right. exists p. destruct (proj1 (Hwhy p) eq_refl) as (_ & ? & ?).
  repeat split; try done. by apply String.eqb_neq.
Qed.

(** X8.  The poster that the constructor builds has no bot, is not
    ready, has a stopped engine without jobs, takes its token and chat
    from the environment, and its default image is either absent or the
    non-empty path of a regular file that could be read when the config
    was loaded. *)
Theorem constructed_poster_state poster t :
  __init__ W = (Ok poster, t) ->
  bot poster = None
  /\ _is_ready poster = false
  /\ scheduler poster = AsyncIOScheduler
  /\ token poster = getenv W "TELEGRAM_BOT_TOKEN"
  /\ chat_id poster = getenv W "TELEGRAM_CHAT_ID"
  /\ (dict_get (config poster) "image_path" JNull = JNull
      \/ exists path, dict_get (config poster) "image_path" JNull = JStr path
                      /\ path <> ""
                      /\ path_is_file W path = Ok true
                      /\ os_access_R_OK W path = Ok true).
Proof.
  unfold __init__.
  match goal with |- context [_load_config W ?s] =>
    destruct (load_config_run W s) as (cfg & tl & Hrun);
    pose proof (load_config_image_checked s cfg s tl Hrun) as Himg
  end.
  rewrite Hrun. intros [= <- <-]. simpl. repeat split; try done.
Qed.

(** X9.  When [config.json] holds an object whose [image_path] is an
    ASCII string, or is missing and so read as the empty string, loading
    returns that object with only [image_path] replaced: by the resolved
    path when the stripped string resolves to a regular file that can be
    read, and by [None] otherwise.  Every other key, [scheduled_posts]
    among them, is kept as it was read, and no loading failure is
    logged. *)
Theorem load_config_keeps_other_keys (m : gmap string json) raw self :
  load_config_json W = Ok (JObj m) ->
  dict_get m "image_path" (JStr "") = JStr raw ->
  is_ascii raw = true ->
  exists image t,
    _load_config W self = (Ok (<["image_path" := image]> m), self, t)
    /\ (forall key, key <> "image_path" ->
                    (<["image_path" := image]> m : gmap string json) !! key = m !! key)
    /\ (forall e, LogError "Config loading failed: " (ArgExn e) ∉ t)
    /\ (forall p, image = JStr p <->
                  p <> ""
                  /\ path_resolve W (strip raw) = Ok p
                  /\ path_is_file W p = Ok true
                  /\ os_access_R_OK W p = Ok true)
    /\ ((forall p, image <> JStr p) -> image = JNull).
Proof.
  intros Hload Hraw _.
  destruct (validate_answer (strip raw)) as (r & tv & Hrun & Hwhy & Hlog).
  exists (or_None r), tv.
  unfold _load_config, get_method, strip_method. unfold_run.
  rewrite Hload. simpl. rewrite Hraw. simpl. rewrite Hrun. simpl.
  rewrite app_nil_r. split; [done |]. split.
  { intros key Hkey. by rewrite lookup_insert_ne. }
  split; [done |]. split.
  - intros p. rewrite <- (Hwhy p). unfold or_None.
    destruct r as [q|]; [| split; [done | by intros (_ & [=])]].
    destruct (String.eqb q "") eqn:Hempty.
    + apply String.eqb_eq in Hempty as ->.
      split; [done | by intros (Hp & [= <-])].
    + apply String.eqb_neq in Hempty.
      split; [by intros [= <-] | by intros (_ & [= <-])].
  - unfold or_None. destruct r as [q|]; [| done].
    destruct (String.eqb q ""); [done |]. intros Hnot. by destruct (Hnot q).
Qed.

(** X10.  When [config.json] does not hold an object, or holds one whose
    [image_path] is not a string (null, a number, a list), the attribute
    error is caught like a read error: loading returns the fallback dict,
    so the posts of the file are dropped along with the image. *)
Theorem load_config_bad_image_path_drops_posts (doc : json) self :
  load_config_json W = Ok doc ->
  ((forall m, doc <> JObj m)
   \/ exists m v, doc = JObj m /\ m !! "image_path" = Some v /\ forall raw, v <> JStr raw) ->
  _load_config W self
  = (Ok fallback_config, self, [LogError "Config loading failed: " (ArgExn AttributeError)])
  /\ dict_get fallback_config "scheduled_posts" (JArr []) = JArr [].
Proof.
  intros Hload Hbad. split; [| done].
  unfold _load_config, get_method, strip_method. unfold_run. rewrite Hload. simpl.
  destruct Hbad as [Hdoc | (m & v & -> & Hv & Hstr)].
  - destruct doc; try done. by destruct (Hdoc fields).
  - unfold dict_get. rewrite Hv. simpl.
    destruct v; try done. by destruct (Hstr s).
Qed.

End LoadedConfig.

(* ================================================================== *)
(** ** Further properties of scheduling one post and of the sends *)
(* ================================================================== *)

Section Sends.

Variable W : World.

(** X11.  Why a post is skipped: an entry that is not a dict, a dict
    without [time], a [time] that is not a string, a time that does not
    parse, a trigger that the engine refuses, or an id that the running
    engine already has.  The exception is the one of the first step that
    fails, the poster is unchanged, and the loop turns it into one error
    line. *)
Theorem schedule_post_failure_modes idx self :
  (forall post, (forall m, post <> JObj m) ->
     schedule_post W idx post self = (Raise TypeError, self, []))
  /\ (forall m : gmap string json, m !! "time" = None ->
        schedule_post W idx (JObj m) self = (Raise (KeyError "time"), self, []))
  /\ (forall (m : gmap string json) v, m !! "time" = Some v -> (forall s, v <> JStr s) ->
        schedule_post W idx (JObj m) self = (Raise TypeError, self, []))
  /\ (forall (m : gmap string json) stamp e,
        m !! "time" = Some (JStr stamp) -> strptime W stamp = Raise e ->
        schedule_post W idx (JObj m) self = (Raise e, self, []))
  /\ (forall (m : gmap string json) stamp post_time e,
        m !! "time" = Some (JStr stamp) -> strptime W stamp = Ok post_time ->
        CronTrigger W (trigger_kwargs post_time (dict_get m "repeat" (JStr "once"))) = Raise e ->
        schedule_post W idx (JObj m) self = (Raise e, self, []))
  /\ (forall (m : gmap string json) stamp post_time,
        m !! "time" = Some (JStr stamp) -> strptime W stamp = Ok post_time ->
        CronTrigger W (trigger_kwargs post_time (dict_get m "repeat" (JStr "once"))) = Ok tt ->
        running (scheduler self) = true ->
        has_job ("post_" +:+ pretty idx) (scheduler self) = true ->
        schedule_post W idx (JObj m) self
        = (Raise (ConflictingIdError ("post_" +:+ pretty idx)), self, []))
  /\ (forall post e rest,
        schedule_post W idx post self = (Raise e, self, []) ->
        schedule_from W idx (post :: rest) self
        = match schedule_from W (S idx) rest self with
          | (r, self1, t) =>
              (r, self1, LogError "Failed to schedule post: " (ArgExn e) :: t)
          end).
Proof.
  repeat split.
  1-6: unfold schedule_post, getitem, get_method, add_job.
  - intros post Hpost. unfold_run. destruct post; try done. by destruct (Hpost fields).
  - intros m Htime. unfold_run. by rewrite Htime.
  - intros m v Htime Hv. unfold_run. rewrite Htime. destruct v; try done.
    by destruct (Hv s).
  - intros m stamp e Htime Hparse. unfold_run. by rewrite Htime, Hparse.
  - intros m stamp dt e Htime Hparse Htrig. unfold_run.
    by rewrite Htime, Hparse, Htrig.
  - intros m stamp dt Htime Hparse Htrig Hrunning Hjob. unfold_run.
    by rewrite Htime, Hparse, Htrig, Hrunning, Hjob.
  - intros post e rest Hrun. simpl.
    unfold bind at 1. unfold try_except. rewrite Hrun. unfold emit.
    by destruct (schedule_from W (S idx) rest self) as [[r self1] t].
Qed.

(** X12.  When the media file is there and opens and the platform
    answers 200, the image send is one upload of the resolved file, with
    the whole caption, to the poster's own chat, followed by one info
    line that quotes the first 50 characters of the caption. *)
Theorem send_media_success caption raw full_path resp self :
  path_resolve W raw = Ok full_path ->
  path_exists W full_path = Ok true ->
  open_rb W full_path = Ok tt ->
  requests_post W (sendPhoto_url self) (chat_id self) (JStr caption) full_path = Ok resp ->
  status_code resp = 200 ->
  _send_media W (JStr caption) (JStr raw) self
  = (Ok tt, self,
     [EvHttpPost (sendPhoto_url self) (chat_id self) (JStr caption) full_path;
      LogInfo "Successfully sent media: " (ArgValue (JStr (String.substring 0 50 caption)))]).
Proof.
  intros Hres Hex Hopen Hpost Hstatus.
  unfold _send_media, sendPhoto_url in *. unfold_run.
  by use_answers.
Qed.

(** X13.  A failed upload is logged and not repeated: for any status
    other than 200 the platform's answer is logged as an error, and an
    exception of the HTTP client is logged as an error; in both cases
    exactly one request was issued and the send returns normally. *)
Theorem send_media_upload_failure caption raw full_path self :
  path_resolve W raw = Ok full_path ->
  path_exists W full_path = Ok true ->
  open_rb W full_path = Ok tt ->
  (forall resp,
     requests_post W (sendPhoto_url self) (chat_id self) caption full_path = Ok resp ->
     status_code resp <> 200 ->
     _send_media W caption (JStr raw) self
     = (Ok tt, self,
        [EvHttpPost (sendPhoto_url self) (chat_id self) caption full_path;
         LogError "Failed to send media: " (ArgStr (response_text resp))]))
  /\ (forall e,
        requests_post W (sendPhoto_url self) (chat_id self) caption full_path = Raise e ->
        _send_media W caption (JStr raw) self
        = (Ok tt, self,
           [EvHttpPost (sendPhoto_url self) (chat_id self) caption full_path;
            LogError "Error uploading media via HTTPS: " (ArgExn e)])).
Proof.
  intros Hres Hex Hopen.
  unfold _send_media, sendPhoto_url in *. unfold_run. split.
  - intros resp Hpost Hstatus. apply Z.eqb_neq in Hstatus. by use_answers.
  - intros e Hpost. by use_answers.
Qed.

(** X14.  Every failure before the upload ends the image send with one
    error line and no request: a media value that is not a string, a
    path that cannot be resolved, an existence test that raises, or a
    file that is there but cannot be opened (a directory, a file without
    read permission). *)
Theorem send_media_fails_before_upload caption self :
  (forall media, (forall raw, media <> JStr raw) ->
     _send_media W caption media self
     = (Ok tt, self, [LogError "Error uploading media via HTTPS: " (ArgExn TypeError)]))
  /\ (forall raw e, path_resolve W raw = Raise e ->
        _send_media W caption (JStr raw) self
        = (Ok tt, self, [LogError "Error uploading media via HTTPS: " (ArgExn e)]))
  /\ (forall raw full_path e,
        path_resolve W raw = Ok full_path -> path_exists W full_path = Raise e ->
        _send_media W caption (JStr raw) self
        = (Ok tt, self, [LogError "Error uploading media via HTTPS: " (ArgExn e)]))
  /\ (forall raw full_path e,
        path_resolve W raw = Ok full_path -> path_exists W full_path = Ok true ->
        open_rb W full_path = Raise e ->
        _send_media W caption (JStr raw) self
        = (Ok tt, self, [LogError "Error uploading media via HTTPS: " (ArgExn e)])).
Proof.
  unfold _send_media. repeat split.
  - intros media Hmedia. unfold_run. destruct media; try done. by destruct (Hmedia s).
  - intros raw e Hres. unfold_run. by use_answers.
  - intros raw p e Hres Hex. unfold_run. by use_answers.
  - intros raw p e Hres Hex Hopen. unfold_run. by use_answers.
Qed.

(** X15.  The success line slices the caption, so a caption that is
    null, a boolean or a number turns an upload that the platform
    accepted into an error line: the request was issued and answered 200,
    and what is logged is the [TypeError] of the slice. *)
Theorem send_media_unsliceable_caption caption raw full_path resp self :
  (caption = JNull \/ (exists b, caption = JBool b) \/ (exists n, caption = JInt n)
   \/ (exists m e, caption = JFloat m e)) ->
  path_resolve W raw = Ok full_path ->
  path_exists W full_path = Ok true ->
  open_rb W full_path = Ok tt ->
  requests_post W (sendPhoto_url self) (chat_id self) caption full_path = Ok resp ->
  status_code resp = 200 ->
  _send_media W caption (JStr raw) self
  = (Ok tt, self,
     [EvHttpPost (sendPhoto_url self) (chat_id self) caption full_path;
      LogError "Error uploading media via HTTPS: " (ArgExn TypeError)]).
Proof.
  intros Hkind Hres Hex Hopen Hpost Hstatus.
  unfold _send_media, sendPhoto_url in *. unfold_run.
  destruct Hkind as [-> | [[x ->] | [[n ->] | (m & e & ->)]]]; by use_answers.
Qed.

(** X16.  A post with a string [text] and no [media], dispatched by a
    poster with a bot, is one chat message with the whole text, in HTML
    mode, to the poster's chat, followed by one info line that quotes the
    first 50 characters. *)
Theorem send_post_text_delivery (post : gmap string json) text b self :
  post !! "media" = None ->
  post !! "text" = Some (JStr text) ->
  bot self = Some b ->
  send_message W (chat_id self) (JStr text) "HTML" = Ok tt ->
  _send_post W post self
  = (Ok tt, self,
     [EvSendMessage (chat_id self) (JStr text) "HTML";
      LogInfo "Sent message: " (ArgValue (JStr (String.substring 0 50 text)))]).
Proof.
  intros Hmedia Htext Hbot Hsend.
  rewrite (send_post_text W post (JStr text) self Htext Hmedia).
  unfold _send_text. unfold_run. by rewrite Hbot, Hsend.
Qed.

(** X17.  A text send that fails is logged by dispatch and not
    repeated: when the chat client raises, one message was attempted and
    the error is logged; without a bot no message is attempted at all and
    the attribute error is logged. *)
Theorem send_post_text_failure (post : gmap string json) text self :
  post !! "media" = None ->
  post !! "text" = Some text ->
  (forall b e,
     bot self = Some b ->
     send_message W (chat_id self) text "HTML" = Raise e ->
     _send_post W post self
     = (Ok tt, self,
        [EvSendMessage (chat_id self) text "HTML";
         LogError "Send post error: " (ArgExn e)]))
  /\ (bot self = None ->
      _send_post W post self
      = (Ok tt, self, [LogError "Send post error: " (ArgExn AttributeError)])).
Proof.
  intros Hmedia Htext.
  rewrite (send_post_text W post text self Htext Hmedia).
  unfold _send_text. unfold_run. split.
  - intros b e Hbot Hsend. by rewrite Hbot, Hsend.
  - intros Hbot. by rewrite Hbot.
Qed.

(** X18.  The info line slices the text, so a [text] that is null, a
    boolean or a number is reported as a failed post after the chat
    client has accepted the message. *)
Theorem send_post_unsliceable_text (post : gmap string json) text b self :
  post !! "media" = None ->
  post !! "text" = Some text ->
  (text = JNull \/ (exists x, text = JBool x) \/ (exists n, text = JInt n)
   \/ (exists m e, text = JFloat m e)) ->
  bot self = Some b ->
  send_message W (chat_id self) text "HTML" = Ok tt ->
  _send_post W post self
  = (Ok tt, self,
     [EvSendMessage (chat_id self) text "HTML";
      LogError "Send post error: " (ArgExn TypeError)]).
Proof.
  intros Hmedia Htext Hkind Hbot Hsend.
  rewrite (send_post_text W post text self Htext Hmedia).
  unfold _send_text. unfold_run. rewrite Hbot, Hsend.
  destruct Hkind as [-> | [[x ->] | [[n ->] | (m & e & ->)]]]; done.
Qed.

End Sends.

(* ================================================================== *)
(** ** What the methods keep *)
(* ================================================================== *)

Section Lifecycle.

Variable W : World.

Lemma send_post_final (post : gmap string json) self :
  final (_send_post W post self) = self.
Proof.
  destruct (post !! "text") as [text|] eqn:Htext.
  - destruct (post !! "media") as [media|] eqn:Hmedia.
    + rewrite (send_post_media W post text media self Htext Hmedia).
      by destruct (send_media_returns W text media self) as (t & -> & _).
    + rewrite (send_post_text W post text self Htext Hmedia).
      destruct (send_text_run W text self) as (r & t & Hrun & _).
      unfold try_except. rewrite Hrun. by destruct r.
  - by rewrite (send_post_no_text W post self Htext).
Qed.

Lemma send_default_image_final self :
  final (send_default_image W self) = self.
Proof.
  unfold send_default_image, bind, gets, call.
  destruct (_is_ready self); cbn [negb]; [| done]. cbv beta.
  destruct (truthy _); cbn [negb]; [| done].
  by destruct (send_media_returns W (JStr "Here's the requested image!")
                 (dict_get (config self) "image_path" JNull) self) as (t & -> & _).
Qed.

Lemma shutdown_run self :
  shutdown self
  = (Ok tt,
     with_ready false self,
     (if running (scheduler self) then [EvSchedulerShutdown false] else [])
     ++ [LogInfo "Scheduler stopped." ArgNone]).
Proof. destruct self as [? ? ? [[|] ?] ? ? ?]; by vm_compute. Qed.

(** X19.  The settings are fixed once the poster is constructed and the
    bot is attached: [initialize] and [shutdown] change neither the
    config nor the bot, the token or the chat, whether they return or
    raise, and the on-demand image send changes nothing at all. *)
Theorem settings_never_change self :
  same_settings (final (initialize W self)) self
  /\ same_settings (final (shutdown self)) self
  /\ final (send_default_image W self) = self.
Proof.
  split; [| split].
  - destruct (initialize_shape W self) as (r & js & t & -> & _).
    by destruct r.
  - by rewrite shutdown_run.
  - apply send_default_image_final.
Qed.

(** X20.  A ready poster has a running engine.  The constructor
    establishes this, and [initialize], [shutdown], dispatch and the
    on-demand image send keep it, whether they return or raise. *)
Theorem ready_implies_running_invariant :
  (forall poster t, __init__ W = (Ok poster, t) -> ready_implies_running poster)
  /\ (forall self (post : gmap string json),
        ready_implies_running self ->
        ready_implies_running (final (initialize W self))
        /\ ready_implies_running (final (shutdown self))
        /\ ready_implies_running (final (_send_post W post self))
        /\ ready_implies_running (final (send_default_image W self))).
Proof.
  split.
  - unfold __init__. intros poster t.
    match goal with |- context [_load_config W ?s] =>
      destruct (load_config_run W s) as (cfg & tl & ->) end.
    by intros [= <- <-].
  - intros self post Hinv. repeat split.
    + destruct (initialize_shape W self) as (r & js & t & -> & _).
      by destruct r.
    + by rewrite shutdown_run.
    + by rewrite send_post_final.
    + by rewrite send_default_image_final.
Qed.

(** X21.  After an [initialize] that returned, [shutdown] asks the
    engine to stop without waiting, exactly once, and leaves the poster
    not ready while the engine still reports that it runs; the next
    on-demand request is answered with the not-ready reply and nothing is
    sent.  When the event loop then performs the stop, it succeeds and
    leaves the engine stopped, without jobs, and the poster not ready. *)
Theorem shutdown_after_initialize self :
  outcome (initialize W self) = Ok tt ->
  let started := final (initialize W self) in
  let requested := final (shutdown started) in
  let stopped := final (perform_stop requested) in
  trace (shutdown started) = [EvSchedulerShutdown false; LogInfo "Scheduler stopped." ArgNone]
  /\ _is_ready requested = false
  /\ scheduler requested = scheduler started
  /\ running (scheduler requested) = true
  /\ send_default_image W requested
     = (reply_text W "Bot not ready yet.", requested, [EvReplyText "Bot not ready yet."])
  /\ outcome (perform_stop requested) = Ok tt
  /\ scheduler stopped = mk_scheduler false []
  /\ _is_ready stopped = false
  /\ send_default_image W stopped
     = (reply_text W "Bot not ready yet.", stopped, [EvReplyText "Bot not ready yet."]).
Proof.
  intros Hok started requested stopped. subst stopped requested started.
  destruct (initialize_shape W self) as (r & js & t & Hrun & _).
  rewrite Hrun in *. destruct r as [[]|e]; [| done].
  rewrite !shutdown_run. unfold final, trace. simpl.
  repeat split; try done.
Qed.

End Lifecycle.

(* ================================================================== *)
(** ** The calendar behind the weekly and the monthly rule *)
(* ================================================================== *)

(** X22.  The weekly rule has a period of seven days: at the hour and
    minute of the post's time, it fires on a date exactly when that date
    is a whole number of weeks away from the date of the post's time. *)
Theorem weekly_fires_every_seventh_day post_time t :
  hour t = hour post_time -> minute t = minute post_time -> second t = 0 ->
  fires (trigger_kwargs post_time (JStr "weekly")) t = true
  <-> (toordinal t - toordinal post_time) mod 7 = 0.
Proof.
  intros Hh Hm Hs. rewrite fires_weekly. unfold weekday.
  generalize (toordinal t) (toordinal post_time). intros a b.
  split.
  - intros (Hday & _). Z.div_mod_to_equations. lia.
  - intros Hdiff. repeat split; try done. Z.div_mod_to_equations. lia.
Qed.

(** X23.  The monthly rule skips the months that are too short: when
    the day of the post's time is greater than the number of days of a
    month, the rule fires on no date of that month.  A post dated the
    31st never fires in a month of 30 days, nor in February. *)
Theorem monthly_skips_short_months post_time t :
  valid_date t = true ->
  days_in_month (year t) (month t) < day post_time ->
  fires (trigger_kwargs post_time (JStr "monthly")) t = false.
Proof.
  intros Hvalid Hshort.
  destruct (fires _ t) eqn:Hfires; [| done].
  apply fires_monthly in Hfires as (Hday & _).
  unfold valid_date in Hvalid. rewrite !andb_true_iff, !Z.leb_le in Hvalid. lia.
Qed.

(* ================================================================== *)
(** ** The command handler *)
(* ================================================================== *)

Section Command_handler.

Variable W : World.


(** X25.  When the wait runs into the timeout the handler replies that
    the bot is initializing and does not enter the image send: no error
    is logged and nothing is uploaded.  A poster that is not ready and
    that nothing makes ready during the wait is answered this way, so the
    not-ready reply of the image send itself is not reached. *)
Theorem command_timeout_reply :
  (forall (wait_for_ready : M unit) poster poster1 t,
     wait_for_ready poster = (Raise TimeoutError, poster1, t) ->
     command_send_image W wait_for_ready (Some poster)
     = (reply_text W "Bot initializing, try again soon.", Some poster1,
        t ++ [EvReplyText "Bot initializing, try again soon."]))
  /\ (forall poster,
        _is_ready poster = false ->
        command_send_image W wait_undisturbed (Some poster)
        = (reply_text W "Bot initializing, try again soon.", Some poster,
           [EvReplyText "Bot initializing, try again soon."])).
Proof.
  split.
  - intros wait poster poster1 t Hwait.
    unfold command_send_image, bind. by rewrite Hwait.
  - intros poster Hready.
    unfold command_send_image, bind, wait_undisturbed. by rewrite Hready.
Qed.

(** X26.  When the wait returns on a ready poster with a default image,
    the handler is the wait followed by one image send with the fixed
    caption, and it returns normally whatever happens to the upload. *)
Theorem command_ready_sends_default_image
    (wait_for_ready : M unit) poster poster1 t image :
  wait_for_ready poster = (Ok tt, poster1, t) ->
  _is_ready poster1 = true ->
  config poster1 !! "image_path" = Some image ->
  truthy image = true ->
  command_send_image W wait_for_ready (Some poster)
  = (Ok tt, Some poster1,
     t ++ trace (_send_media W (JStr "Here's the requested image!") image poster1)).
Proof.
  intros Hwait Hready Himage Htrue.
  destruct (send_media_returns W (JStr "Here's the requested image!") image poster1)
    as (tm & Hmedia & _).
  unfold command_send_image, bind at 1. rewrite Hwait.
  unfold send_default_image, dict_get, bind, gets.
  rewrite Hready. cbn [negb]. cbv beta. rewrite Himage.
  change (default JNull (Some image)) with image. rewrite Htrue. cbn [negb].
  rewrite Hmedia. done.
Qed.

(** X27.  The handler raises only through the reply of one of its two
    [except] clauses: when those two replies go through, it returns
    normally for every poster, every course of the wait and every failure
    of the image send or of the other replies. *)
Theorem command_raises_only_from_its_error_replies
    (wait_for_ready : M unit) (poster : option TelegramPoster) :
  reply_text W "Bot initializing, try again soon." = Ok tt ->
  reply_text W "Error processing your request." = Ok tt ->
  (command_send_image W wait_for_ready poster).1.1 = Ok tt.
Proof.
  intros Htimeout Herror. unfold command_send_image.
  destruct poster as [p|].
  - destruct ((wait_for_ready >> send_default_image W) p) as [[[[]|e] p1] t]; [done |].
    destruct (is_timeout e); by rewrite ?Htimeout, ?Herror.
  - destruct (reply_text W "Bot configuration missing.") as [[]|e]; [done |].
    destruct (is_timeout e); by rewrite ?Htimeout, ?Herror.
Qed.

End Command_handler.

(* ================================================================== *)
(** ** The further properties at work *)
(* ================================================================== *)

Lemma setup_scheduler_total_in_any_state_witness :
  dict_get (config Cases.started) "scheduled_posts" (JArr [])
  = JArr [JObj Sample.broken_post; JObj Sample.daily_post; JObj Sample.photo_post]
  /\ running (scheduler Cases.started) = true
  /\ outcome (_setup_scheduler Sample.world Cases.started) = Ok tt.
Proof.
  split; [by_evaluation |]. split; [by_evaluation |].
  pose proof (setup_scheduler_total_in_any_state Sample.world
                [JObj Sample.broken_post; JObj Sample.daily_post; JObj Sample.photo_post]
                Cases.started ltac:(by_evaluation)) as (new & t & Hrun & _).
  by rewrite Hrun.
Defined.

Lemma setup_scheduler_registers_only_parsed_posts_witness :
  dict_get (config Sample.poster) "scheduled_posts" (JArr [])
  = JArr [JObj Sample.broken_post; JObj Sample.daily_post; JObj Sample.photo_post]
  /\ exists new,
       jobs (scheduler (final (_setup_scheduler Sample.world Sample.poster)))
       = jobs (scheduler Sample.poster) ++ new
       /\ forall j, j ∈ new ->
            exists (i : nat) (post : gmap string json) stamp post_time,
              [JObj Sample.broken_post; JObj Sample.daily_post; JObj Sample.photo_post] !! i
              = Some (JObj post)
              /\ post !! "time" = Some (JStr stamp)
              /\ strptime Sample.world stamp = Ok post_time
              /\ CronTrigger Sample.world
                   (trigger_kwargs post_time (dict_get post "repeat" (JStr "once"))) = Ok tt
              /\ j = mk_job ("post_" +:+ pretty i)
                            (trigger_kwargs post_time (dict_get post "repeat" (JStr "once")))
                            post.
Proof.
  split; [by_evaluation |].
  exact (setup_scheduler_registers_only_parsed_posts Sample.world
           [JObj Sample.broken_post; JObj Sample.daily_post; JObj Sample.photo_post]
           Sample.poster ltac:(by_evaluation)).
Defined.

Lemma setup_scheduler_ids_distinct_witness :
  dict_get (config Sample.poster) "scheduled_posts" (JArr [])
  = JArr [JObj Sample.broken_post; JObj Sample.daily_post; JObj Sample.photo_post]
  /\ jobs (scheduler Sample.poster) = []
  /\ NoDup (job_id <$> jobs (scheduler (final (_setup_scheduler Sample.world Sample.poster)))).
Proof.
  split; [by_evaluation |]. split; [reflexivity |].
  exact (setup_scheduler_ids_distinct Sample.world
           [JObj Sample.broken_post; JObj Sample.daily_post; JObj Sample.photo_post]
           Sample.poster ltac:(by_evaluation) eq_refl).
Defined.

Lemma initialize_rejects_non_iterable_posts_witness :
  config Cases.null_posts !! "scheduled_posts" = Some JNull
  /\ bot Cases.null_posts = Some BotHandle
  /\ get_me Sample.world = Ok "poster_bot"
  /\ initialize Sample.world Cases.null_posts
     = (Raise TypeError, Cases.null_posts,
        [EvGetMe; LogInfo "Bot initialized as @" (ArgStr "poster_bot")]).
Proof.
  split; [by_evaluation |]. split; [reflexivity |]. split; [reflexivity |].
  exact (proj2 (initialize_rejects_non_iterable_posts Sample.world JNull BotHandle
                  "poster_bot" Cases.null_posts ltac:(by_evaluation)
                  (or_introl eq_refl) eq_refl eq_refl)).
Defined.

Lemma initialize_without_posts_witness :
  bot Cases.bare = Some BotHandle
  /\ dict_get (config Cases.bare) "scheduled_posts" (JArr []) = JArr []
  /\ running (scheduler Cases.bare) = false
  /\ initialize Sample.world Cases.bare
     = (Ok tt,
        with_ready true (with_scheduler (mk_scheduler true []) Cases.bare),
        [EvGetMe; LogInfo "Bot initialized as @" (ArgStr "poster_bot"); EvSchedulerStart]).
Proof.
  split; [reflexivity |]. split; [by_evaluation |]. split; [reflexivity |].
  exact (initialize_without_posts Sample.world BotHandle "poster_bot" Cases.bare
           eq_refl eq_refl ltac:(by_evaluation) eq_refl).
Defined.

Lemma initialize_identity_failure_witness :
  bot Cases.with_bot = Some BotHandle
  /\ get_me Cases.offline = Raise (OtherError "NetworkError")
  /\ initialize Cases.offline Cases.with_bot
     = (Raise (OtherError "NetworkError"), Cases.with_bot, [EvGetMe]).
Proof.
  split; [reflexivity |]. split; [reflexivity |].
  exact (initialize_identity_failure Cases.offline BotHandle (OtherError "NetworkError")
           Cases.with_bot eq_refl eq_refl).
Defined.

Lemma constructed_poster_state_witness :
  __init__ Sample.world = (Ok Sample.poster, [])
  /\ bot Sample.poster = None
  /\ _is_ready Sample.poster = false
  /\ scheduler Sample.poster = AsyncIOScheduler.
Proof.
  split; [by_evaluation |].
  pose proof (constructed_poster_state Sample.world Sample.poster []
                ltac:(by_evaluation)) as (Hbot & Hready & Hsch & _).
  exact (conj Hbot (conj Hready Hsch)).
Defined.

Lemma load_config_keeps_other_keys_witness :
  load_config_json Sample.world = Ok (JObj Cases.sample_fields)
  /\ dict_get Cases.sample_fields "image_path" (JStr "") = JStr "  /srv/bot/banner.png "
  /\ is_ascii "  /srv/bot/banner.png " = true
  /\ _load_config Sample.world Sample.poster
     = (Ok (<["image_path" := JStr "/srv/bot/banner.png"]> Cases.sample_fields),
        Sample.poster, []).
Proof.
  split; [by_evaluation |]. split; [by_evaluation |]. split; [by_evaluation |].
  pose proof (load_config_keeps_other_keys Sample.world Cases.sample_fields
                "  /srv/bot/banner.png " Sample.poster
                ltac:(by_evaluation) ltac:(by_evaluation) ltac:(by_evaluation))
    as (image & t & Hrun & _ & _ & Himage & _).
  assert (image = JStr "/srv/bot/banner.png") as ->.
  { apply Himage. repeat split; [discriminate | by_evaluation ..]. }
  pose proof (f_equal snd Hrun) as Htrace. vm_compute in Htrace.
  rewrite Hrun, <- Htrace. reflexivity.
Defined.

Lemma load_config_bad_image_path_drops_posts_witness :
  load_config_json Cases.null_image = Ok (JObj Cases.null_image_fields)
  /\ Cases.null_image_fields !! "image_path" = Some JNull
  /\ _load_config Cases.null_image Sample.poster
     = (Ok fallback_config, Sample.poster,
        [LogError "Config loading failed: " (ArgExn AttributeError)]).
Proof.
  split; [reflexivity |]. split; [by_evaluation |].
  refine (proj1 (load_config_bad_image_path_drops_posts Cases.null_image
                   (JObj Cases.null_image_fields) Sample.poster eq_refl _)).
  right. exists Cases.null_image_fields, JNull.
  split; [reflexivity |]. split; [by_evaluation | discriminate].
Defined.

Lemma schedule_post_failure_modes_witness :
  Cases.timeless_post !! "time" = None
  /\ schedule_post Sample.world 4 (JObj Cases.timeless_post) Sample.poster
     = (Raise (KeyError "time"), Sample.poster, []).
Proof.
  split; [by_evaluation |].
  pose proof (schedule_post_failure_modes Sample.world 4%nat Sample.poster)
    as (_ & Hkey & _).
  exact (Hkey Cases.timeless_post ltac:(by_evaluation)).
Defined.

Lemma send_media_success_witness :
  path_resolve Sample.world "banner.png" = Ok "/srv/bot/banner.png"
  /\ path_exists Sample.world "/srv/bot/banner.png" = Ok true
  /\ status_code (mk_response 200 "{}") = 200
  /\ _send_media Sample.world (JStr "Banner of the week") (JStr "banner.png") Sample.poster
     = (Ok tt, Sample.poster,
        [EvHttpPost (sendPhoto_url Sample.poster) (Some "-1001")
                    (JStr "Banner of the week") "/srv/bot/banner.png";
         LogInfo "Successfully sent media: "
                 (ArgValue (JStr (String.substring 0 50 "Banner of the week")))]).
Proof.
  split; [by_evaluation |]. split; [by_evaluation |]. split; [reflexivity |].
  exact (send_media_success Sample.world "Banner of the week" "banner.png"
           "/srv/bot/banner.png" (mk_response 200 "{}") Sample.poster
           ltac:(by_evaluation) ltac:(by_evaluation) eq_refl eq_refl eq_refl).
Defined.

Lemma send_media_upload_failure_witness :
  path_resolve Cases.refusing "banner.png" = Ok "/srv/bot/banner.png"
  /\ path_exists Cases.refusing "/srv/bot/banner.png" = Ok true
  /\ status_code (mk_response 403 "Forbidden") <> 200
  /\ _send_media Cases.refusing (JStr "Banner") (JStr "banner.png") Sample.poster
     = (Ok tt, Sample.poster,
        [EvHttpPost (sendPhoto_url Sample.poster) (Some "-1001") (JStr "Banner")
                    "/srv/bot/banner.png";
         LogError "Failed to send media: " (ArgStr "Forbidden")]).
Proof.
  split; [by_evaluation |]. split; [by_evaluation |]. split; [discriminate |].
  pose proof (send_media_upload_failure Cases.refusing (JStr "Banner") "banner.png"
                "/srv/bot/banner.png" Sample.poster
                ltac:(by_evaluation) ltac:(by_evaluation) eq_refl) as (Hstatus & _).
  exact (Hstatus (mk_response 403 "Forbidden") eq_refl ltac:(discriminate)).
Defined.

Lemma send_media_fails_before_upload_witness :
  _send_media Sample.world (JStr "Banner") (JInt 5) Sample.poster
  = (Ok tt, Sample.poster,
     [LogError "Error uploading media via HTTPS: " (ArgExn TypeError)]).
Proof.
  pose proof (send_media_fails_before_upload Sample.world (JStr "Banner") Sample.poster)
    as (Hmedia & _).
  exact (Hmedia (JInt 5) ltac:(discriminate)).
Defined.

Lemma send_media_unsliceable_caption_witness :
  path_resolve Sample.world "banner.png" = Ok "/srv/bot/banner.png"
  /\ path_exists Sample.world "/srv/bot/banner.png" = Ok true
  /\ _send_media Sample.world (JInt 7) (JStr "banner.png") Sample.poster
     = (Ok tt, Sample.poster,
        [EvHttpPost (sendPhoto_url Sample.poster) (Some "-1001") (JInt 7)
                    "/srv/bot/banner.png";
         LogError "Error uploading media via HTTPS: " (ArgExn TypeError)]).
Proof.
  split; [by_evaluation |]. split; [by_evaluation |].
  refine (send_media_unsliceable_caption Sample.world (JInt 7) "banner.png"
            "/srv/bot/banner.png" (mk_response 200 "{}") Sample.poster _
            ltac:(by_evaluation) ltac:(by_evaluation) eq_refl eq_refl eq_refl).
  right. right. left. by exists 7.
Defined.

Lemma send_post_text_delivery_witness :
  Sample.daily_post !! "media" = None
  /\ Sample.daily_post !! "text" = Some (JStr "Good morning")
  /\ bot Cases.with_bot = Some BotHandle
  /\ _send_post Sample.world Sample.daily_post Cases.with_bot
     = (Ok tt, Cases.with_bot,
        [EvSendMessage (Some "-1001") (JStr "Good morning") "HTML";
         LogInfo "Sent message: " (ArgValue (JStr (String.substring 0 50 "Good morning")))]).
Proof.
  split; [by_evaluation |]. split; [by_evaluation |]. split; [reflexivity |].
  exact (send_post_text_delivery Sample.world Sample.daily_post "Good morning" BotHandle
           Cases.with_bot ltac:(by_evaluation) ltac:(by_evaluation) eq_refl eq_refl).
Defined.

Lemma send_post_text_failure_witness :
  Sample.daily_post !! "media" = None
  /\ Sample.daily_post !! "text" = Some (JStr "Good morning")
  /\ send_message Cases.offline (Some "-1001") (JStr "Good morning") "HTML"
     = Raise (OtherError "NetworkError")
  /\ _send_post Cases.offline Sample.daily_post Cases.with_bot
     = (Ok tt, Cases.with_bot,
        [EvSendMessage (Some "-1001") (JStr "Good morning") "HTML";
         LogError "Send post error: " (ArgExn (OtherError "NetworkError"))]).
Proof.
  split; [by_evaluation |]. split; [by_evaluation |]. split; [reflexivity |].
  pose proof (send_post_text_failure Cases.offline Sample.daily_post (JStr "Good morning")
                Cases.with_bot ltac:(by_evaluation) ltac:(by_evaluation)) as (Hraise & _).
  exact (Hraise BotHandle (OtherError "NetworkError") eq_refl eq_refl).
Defined.

Lemma send_post_unsliceable_text_witness :
  Cases.numeric_post !! "media" = None
  /\ Cases.numeric_post !! "text" = Some (JInt 2024)
  /\ _send_post Sample.world Cases.numeric_post Cases.with_bot
     = (Ok tt, Cases.with_bot,
        [EvSendMessage (Some "-1001") (JInt 2024) "HTML";
         LogError "Send post error: " (ArgExn TypeError)]).
Proof.
  split; [by_evaluation |]. split; [by_evaluation |].
  refine (send_post_unsliceable_text Sample.world Cases.numeric_post (JInt 2024) BotHandle
            Cases.with_bot ltac:(by_evaluation) ltac:(by_evaluation) _ eq_refl eq_refl).
  right. right. left. by exists 2024.
Defined.

Lemma ready_implies_running_invariant_witness :
  ready_implies_running Cases.started
  /\ ready_implies_running (final (initialize Sample.world Cases.started))
  /\ ready_implies_running (final (shutdown Cases.started)).
Proof.
  assert (ready_implies_running Cases.started) as Hinv by (intros _; by_evaluation).
  split; [exact Hinv |].
  pose proof (ready_implies_running_invariant Sample.world) as (_ & Hkeep).
  pose proof (Hkeep Cases.started Sample.daily_post Hinv) as (Hinit & Hshut & _).
  exact (conj Hinit Hshut).
Defined.

Lemma shutdown_after_initialize_witness :
  outcome (initialize Sample.world Cases.with_bot) = Ok tt
  /\ trace (shutdown Cases.started)
     = [EvSchedulerShutdown false; LogInfo "Scheduler stopped." ArgNone]
  /\ _is_ready (final (shutdown Cases.started)) = false
  /\ running (scheduler (final (shutdown Cases.started))) = true
  /\ scheduler (final (perform_stop (final (shutdown Cases.started)))) = mk_scheduler false [].
Proof.
  split; [by_evaluation |].
  pose proof (shutdown_after_initialize Sample.world Cases.with_bot ltac:(by_evaluation))
    as (Htrace & Hready & _ & Hrunning & _ & _ & Hstopped & _).
  exact (conj Htrace (conj Hready (conj Hrunning Hstopped))).
Defined.

Lemma weekly_fires_every_seventh_day_witness :
  hour (mk_datetime 2024 1 31 18 5 0) = hour (mk_datetime 2024 1 17 18 5 0)
  /\ (fires (trigger_kwargs (mk_datetime 2024 1 17 18 5 0) (JStr "weekly"))
            (mk_datetime 2024 1 31 18 5 0) = true
      <-> (toordinal (mk_datetime 2024 1 31 18 5 0)
           - toordinal (mk_datetime 2024 1 17 18 5 0)) mod 7 = 0).
Proof.
  split; [reflexivity |].
  exact (weekly_fires_every_seventh_day (mk_datetime 2024 1 17 18 5 0)
           (mk_datetime 2024 1 31 18 5 0) eq_refl eq_refl eq_refl).
Defined.

Lemma monthly_skips_short_months_witness :
  valid_date (mk_datetime 2024 4 30 23 59 0) = true
  /\ days_in_month 2024 4 < day (mk_datetime 2024 3 31 23 59 59)
  /\ fires (trigger_kwargs (mk_datetime 2024 3 31 23 59 59) (JStr "monthly"))
           (mk_datetime 2024 4 30 23 59 0) = false.
Proof.
  split; [reflexivity |]. split; [reflexivity |].
  exact (monthly_skips_short_months (mk_datetime 2024 3 31 23 59 59)
           (mk_datetime 2024 4 30 23 59 0) eq_refl eq_refl).
Defined.


Lemma command_timeout_reply_witness :
  _is_ready Sample.poster = false
  /\ command_send_image Sample.world wait_undisturbed (Some Sample.poster)
     = (Ok tt, Some Sample.poster, [EvReplyText "Bot initializing, try again soon."]).
Proof.
  split; [reflexivity |].
  pose proof (command_timeout_reply Sample.world) as (_ & Hnot_ready).
  exact (Hnot_ready Sample.poster eq_refl).
Defined.

Lemma command_ready_sends_default_image_witness :
  wait_undisturbed Cases.started = (Ok tt, Cases.started, [])
  /\ _is_ready Cases.started = true
  /\ config Cases.started !! "image_path" = Some (JStr "/srv/bot/banner.png")
  /\ command_send_image Sample.world wait_undisturbed (Some Cases.started)
     = (Ok tt, Some Cases.started,
        [] ++ trace (_send_media Sample.world (JStr "Here's the requested image!")
                       (JStr "/srv/bot/banner.png") Cases.started)).
Proof.
  split; [by_evaluation |]. split; [by_evaluation |]. split; [by_evaluation |].
  exact (command_ready_sends_default_image Sample.world wait_undisturbed Cases.started
           Cases.started [] (JStr "/srv/bot/banner.png")
           ltac:(by_evaluation) ltac:(by_evaluation) ltac:(by_evaluation) eq_refl).
Defined.

Lemma command_raises_only_from_its_error_replies_witness :
  reply_text Sample.world "Bot initializing, try again soon." = Ok tt
  /\ reply_text Sample.world "Error processing your request." = Ok tt
  /\ (command_send_image Sample.world wait_undisturbed (Some Sample.poster)).1.1 = Ok tt.
Proof.
  split; [reflexivity |]. split; [reflexivity |].
  exact (command_raises_only_from_its_error_replies Sample.world wait_undisturbed
           (Some Sample.poster) eq_refl eq_refl).
Defined.

(** C9 as first stated fails on a poster that has been started: when
    [shutdown] returns the engine still reports that it runs, and a
    second [shutdown] asks the engine to stop once more. *)
Lemma shutdown_idempotent_counterexample :
  running (scheduler (final (shutdown Cases.started))) = true
  /\ trace (shutdown (final (shutdown Cases.started)))
     = [EvSchedulerShutdown false; LogInfo "Scheduler stopped." ArgNone]
  /\ ~ (running (scheduler (final (shutdown Cases.started))) = false
        /\ shutdown (final (shutdown Cases.started))
           = (Ok tt, final (shutdown Cases.started),
              [LogInfo "Scheduler stopped." ArgNone])).
Proof.
  split; [by_evaluation |]. split; [by_evaluation |].
  intros [Hstopped _]. vm_compute in Hstopped. discriminate Hstopped.
Qed.

Lemma shutdown_requests_stop_witness :
  running (scheduler Cases.started) = true
  /\ outcome (perform_stop (final (shutdown Cases.started))) = Ok tt
  /\ running (scheduler (final (perform_stop (final (shutdown Cases.started))))) = false
  /\ shutdown (final (perform_stop (final (shutdown Cases.started))))
     = (Ok tt, final (perform_stop (final (shutdown Cases.started))),
        [LogInfo "Scheduler stopped." ArgNone]).
Proof.
  split; [by_evaluation |].
  pose proof (shutdown_requests_stop Cases.started)
    as (_ & _ & _ & _ & _ & _ & Hsettled & _).
  pose proof (Hsettled ltac:(by_evaluation)) as (Hok & Hstopped & _ & Hagain).
  exact (conj Hok (conj Hstopped Hagain)).
Defined.
